(** * SpandaOptiChat: the inference-engine layer ([inference_engines.py])

    A shallow embedding of the module that routes chat requests to one of two
    model servers (vLLM, Ollama), and the properties of its backend selection,
    request payloads, stream decoding and error conversion.

    Conventions of the embedding.
    - A Python [str] is a [string]: the UTF-8 bytes of the text.  Every
      character the module itself compares with (["data: "], ["[DONE]"],
      dictionary keys) is ASCII.
    - A Python object is a [pyval]; a tuple is read as a list.
    - A Python exception is an [exn]; a computation that may raise returns a
      [result].
    - The outside world (environment variables, the JSON decoder, the HTTP
      client) is a [Runtime] record that every operation receives.
    - An operation also reports the HTTP requests it issued, in order.
    - [print] calls are left out: standard output is not part of any result. *)

From Stdlib Require Import ZArith NArith List String Ascii Bool Lia DecimalString.
Import ListNotations.

Set Warnings "-register-all".

Local Open Scope string_scope.
Local Open Scope list_scope.
Local Open Scope Z_scope.

(* ================================================================== *)
(** ** Python text *)

Definition chr (n : nat) : ascii := ascii_of_nat n.

Definition bytes (l : list nat) : string :=
  string_of_list_ascii (map chr l).

(** The double quote, as a character and as a text. *)
Definition dquote : string := String "034" EmptyString.

(** [s] with every apostrophe read as a double quote: JSON text can then be
    written down without a quote inside a string literal. *)
Fixpoint dq (s : string) : string :=
  match s with
  | EmptyString => EmptyString
  | String c rest => String (if Ascii.eqb c "'" then "034"%char else c) (dq rest)
  end.

Definition string_rev (s : string) : string :=
  string_of_list_ascii (rev (list_ascii_of_string s)).

(** [c in chars] for a character and a string used as a set of characters. *)
Fixpoint char_in (c : ascii) (chars : string) : bool :=
  match chars with
  | EmptyString => false
  | String d rest => if Ascii.eqb c d then true else char_in c rest
  end.

(** [s.lstrip(chars)]: drops from the left every character that occurs in
    [chars], up to the first character that does not. *)
Fixpoint lstrip (chars : string) (s : string) : string :=
  match s with
  | EmptyString => EmptyString
  | String c rest => if char_in c chars then lstrip chars rest else s
  end.

(** [s.removeprefix(p)] as an option: the rest of [s] after [p] when [s]
    starts with [p]. *)
Fixpoint strip_prefix (p s : string) : option string :=
  match p, s with
  | EmptyString, _ => Some s
  | String a p', String b s' => if Ascii.eqb a b then strip_prefix p' s' else None
  | String _ _, EmptyString => None
  end.

(** The characters [str.isspace] accepts, each as its UTF-8 encoding:
    U+0009..U+000D, U+001C..U+0020, U+0085, U+00A0, U+1680, U+2000..U+200A,
    U+2028, U+2029, U+202F, U+205F and U+3000. *)
Definition whitespace : list string :=
  map bytes
    [ [9%nat]; [10%nat]; [11%nat]; [12%nat]; [13%nat];
      [28%nat]; [29%nat]; [30%nat]; [31%nat]; [32%nat];
      [194; 133]%nat; [194; 160]%nat; [225; 154; 128]%nat;
      [226; 128; 128]%nat; [226; 128; 129]%nat; [226; 128; 130]%nat;
      [226; 128; 131]%nat; [226; 128; 132]%nat; [226; 128; 133]%nat;
      [226; 128; 134]%nat; [226; 128; 135]%nat; [226; 128; 136]%nat;
      [226; 128; 137]%nat; [226; 128; 138]%nat;
      [226; 128; 168]%nat; [226; 128; 169]%nat; [226; 128; 175]%nat;
      [226; 129; 159]%nat; [227; 128; 128]%nat ].

(** The rest of [s] after the first of [pats] that [s] starts with. *)
Fixpoint drop_one_of (pats : list string) (s : string) : option string :=
  match pats with
  | [] => None
  | p :: more =>
      match strip_prefix p s with
      | Some rest => Some rest
      | None => drop_one_of more s
      end
  end.

Fixpoint lstrip_any (fuel : nat) (pats : list string) (s : string) : string :=
  match fuel with
  | O => s
  | S fuel' =>
      match drop_one_of pats s with
      | Some rest => lstrip_any fuel' pats rest
      | None => s
      end
  end.

(** [s.lstrip()], [s.rstrip()] and [s.strip()] with no argument. *)
Definition lstrip_ws (s : string) : string :=
  lstrip_any (String.length s) whitespace s.

Definition rstrip_ws (s : string) : string :=
  string_rev (lstrip_any (String.length s) (map string_rev whitespace) (string_rev s)).

Definition strip (s : string) : string := rstrip_ws (lstrip_ws s).

(** The first character of a UTF-8 text and what follows it. *)
Definition utf8_width (lead : ascii) : nat :=
  let n := nat_of_ascii lead in
  if (n <? 192)%nat then 1%nat
  else if (n <? 224)%nat then 2%nat
  else if (n <? 240)%nat then 3%nat
  else 4%nat.

Fixpoint split_at (n : nat) (s : string) : string * string :=
  match n, s with
  | S n', String c rest => let (a, b) := split_at n' rest in (String c a, b)
  | _, _ => (EmptyString, s)
  end.

Definition uncons_char (s : string) : option (string * string) :=
  match s with
  | EmptyString => None
  | String lead _ => Some (split_at (utf8_width lead) s)
  end.

(** [s[i]] for [0 <= i]: the [i]-th character, if there is one. *)
Fixpoint char_at (i : nat) (s : string) : option string :=
  match uncons_char s with
  | None => None
  | Some (c, rest) =>
      match i with
      | O => Some c
      | S i' => char_at i' rest
      end
  end.

(* ================================================================== *)
(** ** Python objects *)

(** A [float], kept as the decimal numeral it was written or decoded from:
    [FDec neg d e] is (-1)^neg * d * 10^e.  The module never computes with a
    float; it only tests one for truth and passes it on. *)
Inductive pyfloat : Type :=
| FDec (negative : bool) (digits : N) (exp10 : Z)
| FInf (negative : bool)
| FNaN.

Inductive pyval : Type :=
| PNone
| PBool (b : bool)
| PInt (z : Z)
| PFloat (f : pyfloat)
| PStr (s : string)
| PList (l : list pyval)
| PDict (d : list (string * pyval)).

(** A numeral denotes the float 0.0 when its value is zero or rounds to zero
    in binary64, that is when it is at most 2^-1075. *)
Definition float_is_zero (f : pyfloat) : bool :=
  match f with
  | FDec _ d e =>
      if (d =? 0)%N then true
      else if 0 <=? e then false
      else Z.of_N d * 2 ^ 1075 <=? 10 ^ (- e)
  | FInf _ => false
  | FNaN => false
  end.

(** [bool(v)]. *)
Definition truthy (v : pyval) : bool :=
  match v with
  | PNone => false
  | PBool b => b
  | PInt z => negb (z =? 0)
  | PFloat f => negb (float_is_zero f)
  | PStr s => negb (String.eqb s "")
  | PList l => match l with [] => false | _ => true end
  | PDict d => match d with [] => false | _ => true end
  end.

(** [type(v).__name__], as it appears in error messages. *)
Definition type_name (v : pyval) : string :=
  match v with
  | PNone => "NoneType"
  | PBool _ => "bool"
  | PInt _ => "int"
  | PFloat _ => "float"
  | PStr _ => "str"
  | PList _ => "list"
  | PDict _ => "dict"
  end.

(** An [Optional[str]] as an object, and [str(x)] of one inside an f-string. *)
Definition of_opt (o : option string) : pyval :=
  match o with
  | Some s => PStr s
  | None => PNone
  end.

Definition str_opt (o : option string) : string :=
  match o with
  | Some s => s
  | None => "None"
  end.

(** ** Exceptions *)

Inductive exn_class : Type :=
| JSONDecodeError
| TimeoutException        (* httpx.TimeoutException and its subclasses *)
| AttributeError
| IndexError
| KeyError
| TypeError
| OtherException (name : string).

(** An exception object: its class and [str(e)]. *)
Record exn : Type := mkExn { exn_class_of : exn_class; exn_str : string }.

Inductive result (A : Type) : Type :=
| Ok (a : A)
| Raise (e : exn).
Arguments Ok {A} a.
Arguments Raise {A} e.

Definition bind {A B : Type} (r : result A) (k : A -> result B) : result B :=
  match r with
  | Ok a => k a
  | Raise e => Raise e
  end.

Notation "x <- c1 ;; c2" := (bind c1 (fun x => c2))
  (at level 61, c1 at next level, right associativity).

Definition is_JSONDecodeError (e : exn) : bool :=
  match exn_class_of e with JSONDecodeError => true | _ => false end.

Definition is_TimeoutException (e : exn) : bool :=
  match exn_class_of e with TimeoutException => true | _ => false end.

Definition is_JSONDecodeError_result {A : Type} (r : result A) : bool :=
  match r with
  | Raise e => is_JSONDecodeError e
  | Ok _ => false
  end.

(** ** Dictionaries and subscripts *)

(** A dictionary is its items in insertion order, keys distinct. *)
Fixpoint dict_lookup (key : string) (d : list (string * pyval)) : option pyval :=
  match d with
  | [] => None
  | (k, v) :: rest => if String.eqb key k then Some v else dict_lookup key rest
  end.

(** [d[key] = v]: replaces the value of an existing key in place, or appends. *)
Fixpoint dict_set (key : string) (v : pyval) (d : list (string * pyval))
  : list (string * pyval) :=
  match d with
  | [] => [(key, v)]
  | (k, w) :: rest =>
      if String.eqb key k then (k, v) :: rest else (k, w) :: dict_set key v rest
  end.

Definition dict_keys (d : list (string * pyval)) : list string := map fst d.

Definition no_attribute (v : pyval) (attr : string) : exn :=
  mkExn AttributeError
    ("'" ++ type_name v ++ "' object has no attribute '" ++ attr ++ "'")%string.

Definition not_subscriptable (v : pyval) : exn :=
  mkExn TypeError ("'" ++ type_name v ++ "' object is not subscriptable")%string.

(** [v.get(key, default)]: only a dictionary has the method. *)
Definition py_get (v : pyval) (key : string) (default : pyval) : result pyval :=
  match v with
  | PDict d =>
      match dict_lookup key d with
      | Some x => Ok x
      | None => Ok default
      end
  | _ => Raise (no_attribute v "get")
  end.

(** [v[i]] for a literal index [i >= 0]. *)
Definition py_getitem_int (v : pyval) (i : nat) : result pyval :=
  match v with
  | PList l =>
      match nth_error l i with
      | Some x => Ok x
      | None => Raise (mkExn IndexError "list index out of range")
      end
  | PStr s =>
      match char_at i s with
      | Some c => Ok (PStr c)
      | None => Raise (mkExn IndexError "string index out of range")
      end
  | PDict _ => Raise (mkExn KeyError (NilZero.string_of_uint (Nat.to_uint i)))
  | _ => Raise (not_subscriptable v)
  end.

(** [v[key]] for a string key. *)
Definition py_getitem_str (v : pyval) (key : string) : result pyval :=
  match v with
  | PDict d =>
      match dict_lookup key d with
      | Some x => Ok x
      | None => Raise (mkExn KeyError ("'" ++ key ++ "'")%string)
      end
  | PList _ =>
      Raise (mkExn TypeError "list indices must be integers or slices, not str")
  | PStr _ => Raise (mkExn TypeError "string indices must be integers, not 'str'")
  | _ => Raise (not_subscriptable v)
  end.

(** Whether [needle] occurs in [s] ([needle in s] for two strings). *)
Fixpoint is_substring (needle s : string) : bool :=
  match strip_prefix needle s with
  | Some _ => true
  | None =>
      match s with
      | EmptyString => false
      | String _ rest => is_substring needle rest
      end
  end.

(** [key in v] for a string [key]: a key of a dictionary, an element of a
    list, a substring of a string; other objects are not iterable. *)
Definition py_contains_str (key : string) (v : pyval) : result bool :=
  match v with
  | PDict d => Ok (existsb (String.eqb key) (dict_keys d))
  | PList l =>
      Ok (existsb (fun x => match x with PStr s => String.eqb s key | _ => false end) l)
  | PStr s => Ok (is_substring key s)
  | _ =>
      Raise (mkExn TypeError
               ("argument of type '" ++ type_name v ++ "' is not iterable")%string)
  end.

(* ================================================================== *)
(** ** A reference JSON decoder

    [json.loads] belongs to the Python library, so the operations below take
    the decoder from the [Runtime].  [json_decode] is a decoder for the JSON
    grammar as Python's [json] module reads it (strict mode, with the literals
    [NaN], [Infinity] and [-Infinity]); it instantiates the runtime wherever a
    statement is evaluated on concrete text.  It decides which texts decode
    and to what, and differs from [json.loads] in the rest: the message of a
    decoding error names the failure without the position that [json.loads]
    appends; an integer of any length decodes; nesting is bounded by fuel and
    not by the recursion limit; the input is a text, so the encoding of a
    body given as bytes is taken to be UTF-8.  No statement below rests on
    the message of a decoding error. *)

Definition decode_error {A : Type} (why : string) : result A :=
  Raise (mkExn JSONDecodeError why).

Definition is_json_ws (c : ascii) : bool :=
  let n := nat_of_ascii c in
  ((n =? 32) || (n =? 9) || (n =? 10) || (n =? 13))%nat.

Fixpoint skip_ws (s : string) : string :=
  match s with
  | String c rest => if is_json_ws c then skip_ws rest else s
  | EmptyString => EmptyString
  end.

Definition is_digit (c : ascii) : bool :=
  let n := nat_of_ascii c in ((48 <=? n) && (n <=? 57))%nat.

Definition digit_value (c : ascii) : N := N.of_nat (nat_of_ascii c - 48).

(** The longest prefix of digits and what follows it. *)
Fixpoint span_digits (s : string) : string * string :=
  match s with
  | String c rest =>
      if is_digit c then let (ds, r) := span_digits rest in (String c ds, r)
      else (EmptyString, s)
  | EmptyString => (EmptyString, EmptyString)
  end.

Fixpoint digits_value (acc : N) (ds : string) : N :=
  match ds with
  | String c rest => digits_value (10 * acc + digit_value c)%N rest
  | EmptyString => acc
  end.

Definition hex_value (c : ascii) : option N :=
  let n := nat_of_ascii c in
  if ((48 <=? n) && (n <=? 57))%nat then Some (N.of_nat (n - 48))
  else if ((65 <=? n) && (n <=? 70))%nat then Some (N.of_nat (n - 55))
  else if ((97 <=? n) && (n <=? 102))%nat then Some (N.of_nat (n - 87))
  else None.

(** Four hexadecimal digits at the head of [s]. *)
Definition hex4 (s : string) : option (N * string) :=
  match s with
  | String a (String b (String c (String d rest))) =>
      match hex_value a, hex_value b, hex_value c, hex_value d with
      | Some x, Some y, Some z, Some w => Some (((x * 16 + y) * 16 + z) * 16 + w, rest)%N
      | _, _, _, _ => None
      end
  | _ => None
  end.

Definition byte_of_N (n : N) : ascii := ascii_of_N n.

(** [chr(cp)] in UTF-8 (a lone surrogate takes the three-byte form). *)
Definition utf8_encode (cp : N) : string :=
  (if cp <? 128 then String (byte_of_N cp) EmptyString
   else if cp <? 2048 then
     String (byte_of_N (192 + cp / 64))
       (String (byte_of_N (128 + cp mod 64)) EmptyString)
   else if cp <? 65536 then
     String (byte_of_N (224 + cp / 4096))
       (String (byte_of_N (128 + (cp / 64) mod 64))
          (String (byte_of_N (128 + cp mod 64)) EmptyString))
   else
     String (byte_of_N (240 + cp / 262144))
       (String (byte_of_N (128 + (cp / 4096) mod 64))
          (String (byte_of_N (128 + (cp / 64) mod 64))
             (String (byte_of_N (128 + cp mod 64)) EmptyString))))%N.

(** A [\uXXXX] escape, [s] starting after the [u]; a high surrogate followed
    by an escaped low surrogate makes one character. *)
Definition scan_unicode_escape (s : string) : result (string * string) :=
  match hex4 s with
  | None => decode_error "Invalid \uXXXX escape"
  | Some (hi, rest) =>
      if ((55296 <=? hi) && (hi <=? 56319))%N then
        match rest with
        | String "\" (String "u" rest2) =>
            match hex4 rest2 with
            | None => decode_error "Invalid \uXXXX escape"
            | Some (lo, rest3) =>
                if ((56320 <=? lo) && (lo <=? 57343))%N
                then Ok (utf8_encode (65536 + (hi - 55296) * 1024 + (lo - 56320))%N, rest3)
                else Ok (utf8_encode hi, rest)
            end
        | _ => Ok (utf8_encode hi, rest)
        end
      else Ok (utf8_encode hi, rest)
  end.

(** The body of a string literal, [s] starting after the opening quote. *)
Fixpoint scan_string (fuel : nat) (s : string) : result (string * string) :=
  match fuel with
  | O => Raise (mkExn (OtherException "RecursionError") "")
  | S fuel' =>
      match s with
      | EmptyString => decode_error "Unterminated string starting at"
      | String c rest =>
          if Ascii.eqb c "034" then Ok (EmptyString, rest)
          else if Ascii.eqb c "\" then
            match rest with
            | EmptyString => decode_error "Unterminated string starting at"
            | String e rest' =>
                piece <-
                  (if Ascii.eqb e "u" then scan_unicode_escape rest'
                   else
                     match
                       (if Ascii.eqb e "034" then Some 34
                        else if Ascii.eqb e "\" then Some 92
                        else if Ascii.eqb e "/" then Some 47
                        else if Ascii.eqb e "b" then Some 8
                        else if Ascii.eqb e "f" then Some 12
                        else if Ascii.eqb e "n" then Some 10
                        else if Ascii.eqb e "r" then Some 13
                        else if Ascii.eqb e "t" then Some 9
                        else None)%nat
                     with
                     | Some n => Ok (String (chr n) EmptyString, rest')
                     | None => decode_error "Invalid \escape"
                     end) ;;
                tail <- scan_string fuel' (snd piece) ;;
                Ok ((fst piece ++ fst tail)%string, snd tail)
            end
          else if (nat_of_ascii c <? 32)%nat then decode_error "Invalid control character at"
          else
            tail <- scan_string fuel' rest ;;
            Ok (String c (fst tail), snd tail)
      end
  end.

(** A number at the head of [s]: an integer part, then a fraction and an
    exponent when they are complete.  An integer numeral gives an [int],
    anything else a [float]. *)
Definition scan_number (s : string) : option (pyval * string) :=
  let (neg, s1) :=
    match s with
    | String "-" r => (true, r)
    | _ => (false, s)
    end in
  let int_part :=
    match s1 with
    | String c r =>
        if Ascii.eqb c "0" then Some ("0", r)
        else if is_digit c then Some (span_digits s1)
        else None
    | EmptyString => None
    end in
  match int_part with
  | None => None
  | Some (ids, s2) =>
      let (fds, s3) :=
        match s2 with
        | String "." (String d r) =>
            if is_digit d then span_digits (String d r) else ("", s2)
        | _ => ("", s2)
        end in
      let exponent :=
        match s3 with
        | String e r =>
            if Ascii.eqb e "e" || Ascii.eqb e "E" then
              let (eneg, r1) :=
                match r with
                | String "-" r' => (true, r')
                | String "+" r' => (false, r')
                | _ => (false, r)
                end in
              match r1 with
              | String d _ =>
                  if is_digit d then
                    let (eds, r2) := span_digits r1 in
                    let v := Z.of_N (digits_value 0 eds) in
                    Some ((if eneg then - v else v), r2)
                  else None
              | EmptyString => None
              end
            else None
        | EmptyString => None
        end in
      match fds, exponent with
      | EmptyString, None =>
          let v := Z.of_N (digits_value 0 ids) in
          Some (PInt (if neg then - v else v), s3)
      | _, _ =>
          let (e, s4) := match exponent with Some (e, r) => (e, r) | None => (0, s3) end in
          Some (PFloat (FDec neg (digits_value 0 (ids ++ fds)%string)
                          (e - Z.of_nat (String.length fds))), s4)
      end
  end.

(** One JSON value at the head of [s] (no leading white space), and the
    elements of an array and the members of an object after their first
    token.  Every call consumes a character, so fuel twice the length of the
    text, and a little more, is never exhausted. *)
Fixpoint scan_value (fuel : nat) (s : string) : result (pyval * string) :=
  match fuel with
  | O => Raise (mkExn (OtherException "RecursionError") "")
  | S fuel' =>
      match s with
      | String "034" rest =>
          r <- scan_string (S (String.length rest)) rest ;;
          Ok (PStr (fst r), snd r)
      | String "{" rest =>
          match skip_ws rest with
          | String "}" rest' => Ok (PDict [], rest')
          | body => r <- scan_members fuel' [] body ;; Ok (PDict (fst r), snd r)
          end
      | String "[" rest =>
          match skip_ws rest with
          | String "]" rest' => Ok (PList [], rest')
          | body => r <- scan_elements fuel' [] body ;; Ok (PList (fst r), snd r)
          end
      | _ =>
          match strip_prefix "null" s, strip_prefix "true" s, strip_prefix "false" s with
          | Some rest, _, _ => Ok (PNone, rest)
          | _, Some rest, _ => Ok (PBool true, rest)
          | _, _, Some rest => Ok (PBool false, rest)
          | None, None, None =>
              match scan_number s with
              | Some r => Ok r
              | None =>
                  match strip_prefix "NaN" s, strip_prefix "Infinity" s,
                        strip_prefix "-Infinity" s with
                  | Some rest, _, _ => Ok (PFloat FNaN, rest)
                  | _, Some rest, _ => Ok (PFloat (FInf false), rest)
                  | _, _, Some rest => Ok (PFloat (FInf true), rest)
                  | None, None, None => decode_error "Expecting value"
                  end
              end
          end
      end
  end

with scan_elements (fuel : nat) (acc : list pyval) (s : string)
  : result (list pyval * string) :=
  match fuel with
  | O => Raise (mkExn (OtherException "RecursionError") "")
  | S fuel' =>
      r <- scan_value fuel' s ;;
      match skip_ws (snd r) with
      | String "]" rest => Ok (acc ++ [fst r], rest)
      | String "," rest => scan_elements fuel' (acc ++ [fst r]) (skip_ws rest)
      | _ => decode_error "Expecting ',' delimiter"
      end
  end

with scan_members (fuel : nat) (acc : list (string * pyval)) (s : string)
  : result (list (string * pyval) * string) :=
  match fuel with
  | O => Raise (mkExn (OtherException "RecursionError") "")
  | S fuel' =>
      match s with
      | String "034" rest =>
          k <- scan_string (S (String.length rest)) rest ;;
          match skip_ws (snd k) with
          | String ":" rest1 =>
              r <- scan_value fuel' (skip_ws rest1) ;;
              match skip_ws (snd r) with
              | String "}" rest2 => Ok (dict_set (fst k) (fst r) acc, rest2)
              | String "," rest2 =>
                  scan_members fuel' (dict_set (fst k) (fst r) acc) (skip_ws rest2)
              | _ => decode_error "Expecting ',' delimiter"
              end
          | _ => decode_error "Expecting ':' delimiter"
          end
      | _ => decode_error "Expecting property name enclosed in double quotes"
      end
  end.

(** [json.loads(s)]: one value between optional white space, nothing after. *)
Definition json_decode (s : string) : result pyval :=
  r <- scan_value (2 * String.length s + 4) (skip_ws s) ;;
  match skip_ws (snd r) with
  | EmptyString => Ok (fst r)
  | _ => decode_error "Extra data"
  end.

(* ================================================================== *)
(** ** The outside world *)

(** A request handed to the [httpx] client: [client.post(url, json=...)] or,
    with [via_stream], [client.stream('POST', url, json=...)].  The time-out
    is [None] in every call of the module. *)
Record Request : Type := mkRequest {
  method : string;
  url : option string;
  json : pyval;
  via_stream : bool
}.

(** What the client hands back: the status, the body as [content] and as
    decoded [text], and for a streamed response the lines [aiter_lines]
    delivers, followed by the exception that broke the connection, if one
    did. *)
Record Response : Type := mkResponse {
  status_code : Z;
  content : string;
  text : string;
  aiter_lines : list string;
  aiter_broken : option exn
}.

Record Runtime : Type := mkRuntime {
  (** the module globals, read by [os.getenv] when the module is imported *)
  ollama_url : option string;
  vllm_url : option string;
  (** [os.getenv] at the time of the call *)
  getenv : string -> option string;
  (** [json.loads] *)
  json_loads : string -> result pyval;
  (** the HTTP client: a response, or the exception it raises *)
  send : Request -> result Response
}.

(** The result of awaiting a coroutine, and of iterating an asynchronous
    generator to its end, each with the requests issued on the way. *)
Record Call (A : Type) : Type := mkCall {
  returned : result A;
  calls : list Request
}.
Arguments mkCall {A} returned calls.
Arguments returned {A} c.
Arguments calls {A} c.

Record Generator (A : Type) : Type := mkGen {
  yielded : list A;
  raised : option exn;
  gen_calls : list Request
}.
Arguments mkGen {A} yielded raised gen_calls.
Arguments yielded {A} g.
Arguments raised {A} g.
Arguments gen_calls {A} g.

(** [a and b]. *)
Definition py_and (a b : pyval) : pyval := if truthy a then b else a.

(** What one pass through the body of an [async for] over the lines of a
    response does: fall through to the next line ([continue]), yield an item
    and go on, leave the loop ([break]), or raise. *)
Inductive step : Type :=
| Continue
| Yield (item : pyval)
| Break
| Throw (e : exn).

(** [async for line in response.aiter_lines(): body(line)] inside a
    generator: the items yielded and the exception that ends the iteration,
    if one does.  [broken] is what the connection raises after its last
    line; a loop left by [break] never sees it. *)
Fixpoint async_for (body : string -> step) (lines : list string)
    (broken : option exn) : list pyval * option exn :=
  match lines with
  | [] => ([], broken)
  | line :: rest =>
      match body line with
      | Continue => async_for body rest broken
      | Yield item =>
          let (more, e) := async_for body rest broken in (item :: more, e)
      | Break => ([], None)
      | Throw e => ([], Some e)
      end
  end.

(* ================================================================== *)
(** ** [class EnvConfig] *)

Module EnvConfig.

Record t : Type := mk {
  vllm_url : option string;
  vllm_model : option string;
  ollama_url : option string;
  ollama_model : option string
}.

Definition __init__ (getenv : string -> option string) : t :=
  {| vllm_url := getenv "VLLM_URL";
     vllm_model := getenv "VLLM_MODEL";
     ollama_url := getenv "OLLAMA_URL";
     ollama_model := getenv "OLLAMA_MODEL" |}.

Definition is_vllm_available (self : t) : bool :=
  truthy (py_and (of_opt (vllm_url self)) (of_opt (vllm_model self))).

Definition is_ollama_available (self : t) : bool :=
  truthy (py_and (of_opt (ollama_url self)) (of_opt (ollama_model self))).

Definition get_model_and_url (self : t) : option string * option string :=
  if is_vllm_available self then (vllm_model self, vllm_url self)
  else if is_ollama_available self then (ollama_model self, ollama_url self)
  else (None, None).

End EnvConfig.

(* ================================================================== *)
(** ** The vLLM adapter *)

(** Default values of the sampling parameters of the vLLM operations. *)
Definition default_temperature : pyval := PFloat (FDec false 0 (-1)).  (* 0.0 *)
Definition default_top_p : pyval := PFloat (FDec false 1 (-1)).        (* 0.1 *)
Definition default_top_k : pyval := PInt 1.
Definition default_seed : pyval := PInt 42.

(** The payload of both vLLM operations.  With no message list, the two
    messages are built from [prompt[0]] and [prompt[1]], which raises when
    [prompt] has no such items. *)
Definition vllm_payload (model prompt messages temperature top_p top_k seed : pyval)
    (stream : bool) : result pyval :=
  msgs <-
    (if truthy messages then Ok messages
     else
       system <- py_getitem_int prompt 0 ;;
       user <- py_getitem_int prompt 1 ;;
       Ok (PList [ PDict [("role", PStr "system"); ("content", system)];
                   PDict [("role", PStr "user"); ("content", user)] ])) ;;
  Ok (PDict [ ("model", model); ("messages", msgs);
              ("temperature", temperature); ("top_p", top_p);
              ("top_k", top_k); ("seed", seed); ("stream", PBool stream) ]).

(** [data.get('choices', [{}])[0].get(field, {}).get('content', '')]. *)
Definition first_choice_content (data : pyval) (field : string) : result pyval :=
  choices <- py_get data "choices" (PList [PDict []]) ;;
  first <- py_getitem_int choices 0 ;;
  inner <- py_get first field (PDict []) ;;
  py_get inner "content" (PStr "").

(** [except httpx.TimeoutException] and [except Exception] of the two
    non-streaming operations. *)
Definition error_dict (e : exn) : pyval :=
  if is_TimeoutException e then PDict [("error", PStr "Request timed out")]
  else PDict [("error", PStr (exn_str e))].

Definition catch_all (body : result pyval) : pyval :=
  match body with
  | Ok d => d
  | Raise e => error_dict e
  end.

(** The [try] statement of [invoke_llm_vllm]: post the payload, read the
    answer off a 200 response, turn everything else into an error. *)
Definition invoke_llm_vllm_try (rt : Runtime) (request : Request) : pyval :=
  catch_all
    (response <- send rt request ;;
     if status_code response =? 200 then
       response_data <- json_loads rt (content response) ;;
       ai_msg <- first_choice_content response_data "message" ;;
       Ok (PDict [("answer", ai_msg)])
     else Ok (PDict [("error", PStr (text response))])).

Definition invoke_llm_vllm (rt : Runtime)
    (model prompt messages temperature top_p top_k seed : pyval) : Call pyval :=
  match vllm_payload model prompt messages temperature top_p top_k seed false with
  | Raise e => mkCall (Raise e) []
  | Ok payload =>
      let request := mkRequest "POST" (vllm_url rt) payload false in
      mkCall (Ok (invoke_llm_vllm_try rt request)) [request]
  end.

(** [line.lstrip("data: ").strip()]. *)
Definition vllm_raw_line (line : string) : string :=
  strip (lstrip "data: " line).

(** The body of the loop over the lines of [stream_llm_vllm]. *)
Definition stream_llm_vllm_body (rt : Runtime) (line : string) : step :=
  if truthy (PStr line) then
    let raw_line := vllm_raw_line line in
    if String.eqb raw_line "[DONE]" then Break
    else
      match (data <- json_loads rt raw_line ;; first_choice_content data "delta") with
      | Ok content => if truthy content then Yield content else Continue
      | Raise e => if is_JSONDecodeError e then Continue else Throw e
      end
  else Continue.

Definition stream_llm_vllm (rt : Runtime)
    (ollama_model prompt messages temperature top_p top_k seed : pyval)
    : Generator pyval :=
  match vllm_payload ollama_model prompt messages temperature top_p top_k seed true with
  | Raise e => mkGen [] (Some e) []
  | Ok payload =>
      let request := mkRequest "POST" (vllm_url rt) payload true in
      match send rt request with
      | Raise e => mkGen [] (Some e) [request]
      | Ok response =>
          if status_code response =? 200 then
            let (items, e) :=
              async_for (stream_llm_vllm_body rt)
                (aiter_lines response) (aiter_broken response) in
            mkGen items e [request]
          else mkGen [] None [request]
      end
  end.

(* ================================================================== *)
(** ** The Ollama adapter *)

Definition ollama_options : pyval :=
  PDict [ ("top_k", PInt 1); ("top_p", PInt 0); ("temperature", PInt 0);
          ("seed", PInt 100); ("num_ctx", PInt 4096) ].

(** [f"{ollama_url}/api/generate"] for the global [ollama_url]. *)
Definition ollama_endpoint (rt : Runtime) : string :=
  (str_opt (ollama_url rt) ++ "/api/generate")%string.

(** The [try] statement of [invoke_llm_ollama]; the body is decoded before
    the status is looked at. *)
Definition invoke_llm_ollama_try (rt : Runtime) (request : Request) : pyval :=
  catch_all
    (response <- send rt request ;;
     response_data <- json_loads rt (content response) ;;
     if status_code response =? 200 then
       ai_msg <- py_getitem_str response_data "response" ;;
       Ok (PDict [("answer", ai_msg)])
     else Ok (PDict [("error", PStr (text response))])).

Definition invoke_llm_ollama (rt : Runtime) (ollama_model prompt messages : pyval)
    : Call pyval :=
  let model := getenv rt "OLLAMA_MODEL" in
  let ollama_model := of_opt model in
  let payload :=
    PDict [ ("messages", messages); ("prompt", prompt); ("model", ollama_model);
            ("options", ollama_options); ("stream", PBool false) ] in
  let request := mkRequest "POST" (Some (ollama_endpoint rt)) payload false in
  mkCall (Ok (invoke_llm_ollama_try rt request)) [request].

(** The body of the loop over the lines of [stream_llm_ollama]. *)
Definition stream_llm_ollama_body (rt : Runtime) (line : string) : step :=
  if truthy (PStr line) then
    match
      (data <- json_loads rt line ;;
       has <- py_contains_str "response" data ;;
       if has : bool then item <- py_getitem_str data "response" ;; Ok (Some item)
       else Ok None)
    with
    | Ok (Some item) => Yield item
    | Ok None => Continue
    | Raise e => if is_JSONDecodeError e then Continue else Throw e
    end
  else Continue.

Definition stream_llm_ollama (rt : Runtime) (ollama_model prompt messages : pyval)
    : Generator pyval :=
  let payload :=
    PDict [ ("prompt", prompt); ("messages", messages); ("model", ollama_model);
            ("options", ollama_options); ("stream", PBool true) ] in
  let request := mkRequest "POST" (Some (ollama_endpoint rt)) payload true in
  match send rt request with
  | Raise e => mkGen [] (Some e) [request]
  | Ok response =>
      let (items, e) :=
        async_for (stream_llm_ollama_body rt)
          (aiter_lines response) (aiter_broken response) in
      mkGen items e [request]
  end.

(* ================================================================== *)
(** ** The dispatcher *)

(** [if config is None: config = EnvConfig()]. *)
Definition config_or_env (rt : Runtime) (config : option EnvConfig.t) : EnvConfig.t :=
  match config with
  | Some c => c
  | None => EnvConfig.__init__ (getenv rt)
  end.

Definition stream_llm (rt : Runtime) (prompt messages : pyval)
    (config : option EnvConfig.t) : Generator pyval :=
  let config := config_or_env rt config in
  let (model, url) := EnvConfig.get_model_and_url config in
  if negb (truthy (of_opt model)) || negb (truthy (of_opt url)) then
    mkGen [PStr "Error: No LLM service available for model"] None []
  else if EnvConfig.is_vllm_available config then
    stream_llm_vllm rt (of_opt model) prompt messages
      default_temperature default_top_p default_top_k default_seed
  else stream_llm_ollama rt (of_opt model) prompt messages.

(** [invoke_llm] hands back a dictionary, or with [stream=True] the generator
    of [stream_llm], which issues its request only once it is iterated. *)
Inductive invoke_llm_result : Type :=
| Awaited (c : Call pyval)
| AsyncGen (g : Generator pyval).

Definition invoke_llm (rt : Runtime) (prompt messages : pyval)
    (config : option EnvConfig.t) (stream : bool) : invoke_llm_result :=
  if stream then AsyncGen (stream_llm rt prompt messages config)
  else
    let config := config_or_env rt config in
    let (model, url) := EnvConfig.get_model_and_url config in
    if negb (truthy (of_opt model)) || negb (truthy (of_opt url)) then
      Awaited (mkCall (Ok (PDict [("error", PStr "No LLM service available for model")])) [])
    else if EnvConfig.is_vllm_available config then
      Awaited (invoke_llm_vllm rt (of_opt model) prompt messages
                 default_temperature default_top_p default_top_k default_seed)
    else Awaited (invoke_llm_ollama rt (of_opt model) prompt messages).

(* ================================================================== *)
(** ** [class SpandaLLM] *)

Module AIMessage.
Record t : Type := mk { content : string }.
End AIMessage.

Module SpandaLLM.

Record t : Type := mk {
  config : option EnvConfig.t;
  streaming : bool
}.

(** The loop of [_astream] over the chunks of the underlying stream, from
    the text accumulated so far: [content += chunk] raises for a chunk that
    is not a [str]; an exception of the underlying stream passes through;
    the final message follows a stream that ended. *)
Fixpoint _astream_loop (content : string) (chunks : list pyval)
    (raised : option exn) : list AIMessage.t * option exn :=
  match chunks with
  | [] =>
      match raised with
      | None => ([AIMessage.mk content], None)
      | Some e => ([], Some e)
      end
  | chunk :: rest =>
      match chunk with
      | PStr s =>
          let (more, e) := _astream_loop (content ++ s)%string rest raised in
          (AIMessage.mk s :: more, e)
      | _ =>
          ([], Some (mkExn TypeError
                       ("can only concatenate str (not " ++ dquote ++ type_name chunk
                        ++ dquote ++ ") to str")%string))
      end
  end.

Definition _astream (rt : Runtime) (self : t) (messages : pyval)
    : Generator AIMessage.t :=
  let underlying := stream_llm rt PNone messages (config self) in
  let (items, e) := _astream_loop "" (yielded underlying) (raised underlying) in
  mkGen items e (gen_calls underlying).

End SpandaLLM.

(* ================================================================== *)
(** ** Vocabulary of the statements *)

(** An optional text that is set and is not the empty text. *)
Definition non_empty (o : option string) : Prop :=
  exists s, o = Some s /\ s <> EmptyString.

(** A dictionary with the single key ["answer"], or with the single key
    ["error"] holding a text. *)
Definition answer_xor_error (d : pyval) : Prop :=
  (exists v, d = PDict [("answer", v)]) \/ (exists s, d = PDict [("error", PStr s)]).

(** The line is one whose decoding the adapter attempts and [json.loads]
    rejects with a [JSONDecodeError]. *)
Definition vllm_malformed (rt : Runtime) (line : string) : bool :=
  truthy (PStr line)
  && negb (String.eqb (vllm_raw_line line) "[DONE]")
  && match json_loads rt (vllm_raw_line line) with
     | Raise e => is_JSONDecodeError e
     | Ok _ => false
     end.

Definition ollama_malformed (rt : Runtime) (line : string) : bool :=
  truthy (PStr line)
  && match json_loads rt line with
     | Raise e => is_JSONDecodeError e
     | Ok _ => false
     end.

(** The delta a decoded line of each stream carries: the non-empty [content]
    of the [delta] of the first choice, and the [response] field. *)
Definition vllm_delta (data : pyval) : list pyval :=
  match data with
  | PDict d =>
      match dict_lookup "choices" d with
      | Some (PList (PDict choice :: _)) =>
          match dict_lookup "delta" choice with
          | Some (PDict delta) =>
              match dict_lookup "content" delta with
              | Some v => if truthy v then [v] else []
              | None => []
              end
          | _ => []
          end
      | _ => []
      end
  | _ => []
  end.

Definition ollama_delta (data : pyval) : list pyval :=
  match data with
  | PDict d =>
      match dict_lookup "response" d with
      | Some v => [v]
      | None => []
      end
  | _ => []
  end.

(** The deltas of the parseable lines only, in order: the adapter reads the
    non-empty lines, and [prepare] is what it does to one before decoding. *)
Definition line_deltas (rt : Runtime) (prepare : string -> string)
    (delta : pyval -> list pyval) (line : string) : list pyval :=
  if truthy (PStr line) then
    match json_loads rt (prepare line) with
    | Ok data => delta data
    | Raise _ => []
    end
  else [].

Definition deltas_of_parseable (rt : Runtime) (prepare : string -> string)
    (delta : pyval -> list pyval) (lines : list string) : list pyval :=
  flat_map (line_deltas rt prepare delta) lines.

(** Whether some line reads ["[DONE]"]. *)
Definition has_done (lines : list string) : bool :=
  existsb (fun line => String.eqb (vllm_raw_line line) "[DONE]") lines.

(** The body of a loop raises on no line of [lines]. *)
Definition never_raises (body : string -> step) (lines : list string) : Prop :=
  Forall (fun line => forall e, body line <> Throw e) lines.

(** The lines before the first one that reads ["[DONE]"]. *)
Fixpoint before_done (lines : list string) : list string :=
  match lines with
  | [] => []
  | line :: rest =>
      if String.eqb (vllm_raw_line line) "[DONE]" then [] else line :: before_done rest
  end.

(** What the specification says of the preprocessing of a line: one leading
    ["data: "] removed when present, then white space trimmed. *)
Definition strip_data_prefix (line : string) : string :=
  strip (match strip_prefix "data: " line with
         | Some rest => rest
         | None => line
         end).

(** The requests behind the result of [invoke_llm]: those issued while it is
    awaited or, for a generator, while the generator is iterated. *)
Definition requests_of (r : invoke_llm_result) : list Request :=
  match r with
  | Awaited c => calls c
  | AsyncGen g => gen_calls g
  end.

(** The value of a field of the JSON payload of a request. *)
Definition payload_field (key : string) (request : Request) : result pyval :=
  py_getitem_str (json request) key.

(** ** Runtimes for concrete runs *)

(** A runtime with both globals set, no environment variable, the reference
    decoder, and a client that answers every request with [reply]. *)
Definition runtime_replying (reply : result Response) : Runtime :=
  mkRuntime (Some "http://localhost:11434") (Some "http://localhost:8000/v1/chat/completions")
    (fun _ => None) json_decode (fun _ => reply).

(** A 200 response that streams [lines] and closes. *)
Definition streaming (lines : list string) : Response :=
  mkResponse 200 EmptyString EmptyString lines None.

(** A response that is not streamed: a status and a body. *)
Definition replied (status : Z) (body : string) : Response :=
  mkResponse status body body [] None.

Definition hel_lo_done : list string :=
  [ dq "data: {'choices':[{'delta':{'content':'Hel'}}]}";
    dq "data: {'choices':[{'delta':{'content':'lo'}}]}";
    "data: [DONE]" ].

Definition vllm_only : EnvConfig.t :=
  EnvConfig.mk (Some "http://vllm.example/v1") (Some "fast-model") None None.

Definition ollama_only : EnvConfig.t :=
  EnvConfig.mk None None (Some "http://ollama.example") (Some "local-model").

Definition user_messages : pyval :=
  PList [PDict [("role", PStr "user"); ("content", PStr "Hi")]].

(** ** [class CancellationToken]

    No operation of the module takes or consults a token: the checks in the
    two streaming loops are commented out. *)

Module CancellationToken.

Record t : Type := mk { is_cancelled : bool }.

Definition __init__ : t := {| is_cancelled := false |}.

Definition cancel (self : t) : t := {| is_cancelled := true |}.

End CancellationToken.

(** ** The other methods of [class SpandaLLM]

    [AIMessage(content=...)] and the [str] behind an f-string belong to the
    libraries; the methods below take them as a [Library] record.  The
    statements about them only assume what both do with a text. *)

Module ChatGeneration.
Record t : Type := mk { message : AIMessage.t }.
End ChatGeneration.

Module ChatResult.
Record t : Type := mk { generations : list ChatGeneration.t }.
End ChatResult.

Record Library : Type := mkLibrary {
  (** [str(v)], as an f-string applies it *)
  format : pyval -> string;
  (** [AIMessage(content=v)]: the message, or the validation error *)
  new_message : pyval -> result AIMessage.t
}.

(** A library that formats a text as itself and builds a message from a
    text. *)
Definition handles_text (lib : Library) : Prop :=
  forall s, format lib (PStr s) = s /\ new_message lib (PStr s) = Ok (AIMessage.mk s).

(** [SpandaLLM._llm_type]. *)
Definition SpandaLLM_llm_type (self : SpandaLLM.t) : string := "spanda-llm".

(** [SpandaLLM._agenerate]. *)
Definition SpandaLLM_agenerate (rt : Runtime) (lib : Library) (self : SpandaLLM.t)
    (messages : pyval) : Call ChatResult.t :=
  match invoke_llm rt PNone messages (SpandaLLM.config self) false with
  | Awaited c =>
      mkCall
        (result <- returned c ;;
         has <- py_contains_str "answer" result ;;
         msg <-
           (if has : bool then
              answer <- py_getitem_str result "answer" ;;
              new_message lib answer
            else
              error <- py_get result "error" PNone ;;
              new_message lib (PStr ("Error: " ++ format lib error))) ;;
         Ok (ChatResult.mk [ChatGeneration.mk msg]))
        (calls c)
  | AsyncGen g =>
      mkCall
        (Raise (mkExn TypeError "argument of type 'async_generator' is not iterable"))
        []
  end.

(** [SpandaLLM.ainvoke]: [result.generations[0].message]. *)
Definition SpandaLLM_ainvoke (rt : Runtime) (lib : Library) (self : SpandaLLM.t)
    (input : pyval) : Call AIMessage.t :=
  let c := SpandaLLM_agenerate rt lib self input in
  mkCall
    (result <- returned c ;;
     match nth_error (ChatResult.generations result) 0 with
     | Some generation => Ok (ChatGeneration.message generation)
     | None => Raise (mkExn IndexError "list index out of range")
     end)
    (calls c).

(** [SpandaLLM.astream]: every message of [_astream], as it comes. *)
Definition SpandaLLM_astream (rt : Runtime) (self : SpandaLLM.t) (input : pyval)
    : Generator AIMessage.t :=
  SpandaLLM._astream rt self input.

(** [SpandaLLM._generate]. *)
Definition SpandaLLM_generate (self : SpandaLLM.t) (messages : pyval)
    : result ChatResult.t :=
  Raise (mkExn (OtherException "NotImplementedError")
           "Synchronous _generate is not supported. Use async methods.").

(** A library for concrete runs: texts as themselves, [None] as ["None"];
    a message from a text, a validation error otherwise. *)
Definition text_library : Library :=
  mkLibrary
    (fun v => match v with PStr s => s | PNone => "None" | _ => type_name v end)
    (fun v => match v with
              | PStr s => Ok (AIMessage.mk s)
              | _ => Raise (mkExn (OtherException "ValidationError") "content")
              end).

(** ** Further vocabulary *)

(** An environment variable set to the empty text, read as unset. *)
Definition unblank (o : option string) : option string :=
  match o with
  | Some EmptyString => None
  | _ => o
  end.

Definition unblank_config (c : EnvConfig.t) : EnvConfig.t :=
  EnvConfig.mk (unblank (EnvConfig.vllm_url c)) (unblank (EnvConfig.vllm_model c))
    (unblank (EnvConfig.ollama_url c)) (unblank (EnvConfig.ollama_model c)).

(** The runtime [rt] with a client that answers every request with
    [response]. *)
Definition answering (rt : Runtime) (response : Response) : Runtime :=
  mkRuntime (ollama_url rt) (vllm_url rt) (getenv rt) (json_loads rt)
    (fun _ => Ok response).

(** [response] with another status. *)
Definition with_status (status : Z) (response : Response) : Response :=
  mkResponse status (content response) (text response)
    (aiter_lines response) (aiter_broken response).

(** The payload of the vLLM operations can be built: there is a non-empty
    message list, or else [prompt[0]] and [prompt[1]] exist. *)
Definition payload_builds (prompt messages : pyval) : Prop :=
  truthy messages = true
  \/ (truthy messages = false
      /\ exists system user,
           py_getitem_int prompt 0 = Ok system /\ py_getitem_int prompt 1 = Ok user).

(** The error dictionary of an exception: the fixed text for a time-out, the
    text of the exception otherwise. *)
Definition error_of (e : exn) : pyval :=
  PDict [("error", PStr (if is_TimeoutException e then "Request timed out" else exn_str e))].

(** Every character of [s] is one of [chars]. *)
Fixpoint all_in (chars s : string) : bool :=
  match s with
  | EmptyString => true
  | String c rest => char_in c chars && all_in chars rest
  end.

(** [l1] is a prefix of [l2]. *)
Definition is_prefix {A : Type} (l1 l2 : list A) : Prop := exists rest, l2 = l1 ++ rest.

(** The two default messages [vllm_payload] builds from a prompt. *)
Definition system_user (system user : pyval) : pyval :=
  PList [ PDict [("role", PStr "system"); ("content", system)];
          PDict [("role", PStr "user"); ("content", user)] ].

(* ================================================================== *)
(** * Properties *)

(** ** Truthiness of optional texts *)

Lemma truthy_of_opt_iff (o : option string) :
  truthy (of_opt o) = true <-> non_empty o.
Proof.
  unfold non_empty. destruct o as [s|]; simpl.
  - destruct (String.eqb_spec s EmptyString) as [->|Hne]; simpl; split.
    + discriminate.
    + intros (s' & Heq & Hne). inversion Heq; subst. now elim Hne.
    + intros _. now exists s.
    + reflexivity.
  - split; [discriminate | intros (s & Heq & _); discriminate].
Qed.

Lemma truthy_and_iff (a b : option string) :
  truthy (py_and (of_opt a) (of_opt b)) = true <-> non_empty a /\ non_empty b.
Proof.
  unfold py_and. destruct (truthy (of_opt a)) eqn:Ha.
  - rewrite truthy_of_opt_iff. apply truthy_of_opt_iff in Ha. tauto.
  - rewrite Ha. split; [discriminate|].
    intros [Hna _]. apply truthy_of_opt_iff in Hna. congruence.
Qed.

Lemma is_vllm_available_iff (c : EnvConfig.t) :
  EnvConfig.is_vllm_available c = true
  <-> non_empty (EnvConfig.vllm_url c) /\ non_empty (EnvConfig.vllm_model c).
Proof. apply truthy_and_iff. Qed.

Lemma is_ollama_available_iff (c : EnvConfig.t) :
  EnvConfig.is_ollama_available c = true
  <-> non_empty (EnvConfig.ollama_url c) /\ non_empty (EnvConfig.ollama_model c).
Proof. apply truthy_and_iff. Qed.

(** ** The resolver *)

(** C1. For every configuration, [get_model_and_url] returns the vLLM pair
    when the vLLM url and model are both non-empty; otherwise the Ollama pair
    when the Ollama url and model are both non-empty; otherwise
    [(None, None)].  It is a total function: no case raises. *)
Theorem get_model_and_url_priority (c : EnvConfig.t) :
  let fast := non_empty (EnvConfig.vllm_url c) /\ non_empty (EnvConfig.vllm_model c) in
  let local := non_empty (EnvConfig.ollama_url c) /\ non_empty (EnvConfig.ollama_model c) in
  (fast ->
   EnvConfig.get_model_and_url c = (EnvConfig.vllm_model c, EnvConfig.vllm_url c))
  /\ (~ fast -> local ->
      EnvConfig.get_model_and_url c = (EnvConfig.ollama_model c, EnvConfig.ollama_url c))
  /\ (~ fast -> ~ local -> EnvConfig.get_model_and_url c = (None, None)).
Proof.
  cbv zeta. unfold EnvConfig.get_model_and_url.
  pose proof (is_vllm_available_iff c) as Hv.
  pose proof (is_ollama_available_iff c) as Ho.
  destruct (EnvConfig.is_vllm_available c), (EnvConfig.is_ollama_available c);
    repeat split; intros; try reflexivity;
    try (exfalso; intuition congruence).
Qed.

Lemma non_empty_some (s : string) : s <> EmptyString -> non_empty (Some s).
Proof. intros H. now exists s. Defined.

Lemma not_non_empty_none : ~ non_empty None.
Proof. intros (s & H & _). discriminate. Defined.

(** The four cases of C1 on concrete configurations: only vLLM set, only
    Ollama set, both set, neither set. *)
Lemma get_model_and_url_priority_witness :
  EnvConfig.get_model_and_url vllm_only
    = (Some "fast-model", Some "http://vllm.example/v1")
  /\ EnvConfig.get_model_and_url ollama_only
     = (Some "local-model", Some "http://ollama.example")
  /\ EnvConfig.get_model_and_url
       (EnvConfig.mk (Some "u1") (Some "m1") (Some "u2") (Some "m2"))
     = (Some "m1", Some "u1")
  /\ EnvConfig.get_model_and_url (EnvConfig.mk None (Some "m1") (Some "u2") None)
     = (None, None).
Proof.
  split; [|split; [|split]].
  - apply (proj1 (get_model_and_url_priority vllm_only)).
    split; apply non_empty_some; discriminate.
  - apply (proj1 (proj2 (get_model_and_url_priority ollama_only))).
    + intros [H _]. exact (not_non_empty_none H).
    + split; apply non_empty_some; discriminate.
  - apply (proj1 (get_model_and_url_priority
                    (EnvConfig.mk (Some "u1") (Some "m1") (Some "u2") (Some "m2")))).
    split; apply non_empty_some; discriminate.
  - apply (proj2 (proj2 (get_model_and_url_priority
                           (EnvConfig.mk None (Some "m1") (Some "u2") None)))).
    + intros [H _]. exact (not_non_empty_none H).
    + intros [_ H]. exact (not_non_empty_none H).
Defined.

(** ** The dispatcher without a backend *)

Lemma no_backend_test (model url : option string) :
  ~ non_empty model \/ ~ non_empty url ->
  negb (truthy (of_opt model)) || negb (truthy (of_opt url)) = true.
Proof.
  intros H. apply orb_true_iff.
  destruct H as [H|H]; [left|right];
    apply negb_true_iff; apply not_true_is_false;
    intros Ht; apply H; now apply truthy_of_opt_iff.
Qed.

(** C2. Whenever the resolver yields no backend for the configuration in
    force (the model or the url is empty), [invoke_llm] without streaming
    returns the dictionary with the single key ["error"] (its text is
    ["No LLM service available for model"]) and issues no request, and
    [stream_llm] yields exactly one item, the error text, then ends, also
    without a request; [invoke_llm] with [stream=True] hands back that same
    generator. *)
Theorem dispatcher_without_backend (rt : Runtime) (prompt messages : pyval)
    (config : option EnvConfig.t) :
  let resolved := EnvConfig.get_model_and_url (config_or_env rt config) in
  ~ non_empty (fst resolved) \/ ~ non_empty (snd resolved) ->
  invoke_llm rt prompt messages config false
    = Awaited (mkCall (Ok (PDict [("error", PStr "No LLM service available for model")])) [])
  /\ stream_llm rt prompt messages config
     = mkGen [PStr "Error: No LLM service available for model"] None []
  /\ invoke_llm rt prompt messages config true
     = AsyncGen (mkGen [PStr "Error: No LLM service available for model"] None []).
Proof.
  cbv zeta. intros H.
  assert (Hs : stream_llm rt prompt messages config
               = mkGen [PStr "Error: No LLM service available for model"] None []).
  { unfold stream_llm.
    destruct (EnvConfig.get_model_and_url (config_or_env rt config)) as [model url].
    simpl in H. now rewrite (no_backend_test _ _ H). }
  repeat split.
  - unfold invoke_llm.
    destruct (EnvConfig.get_model_and_url (config_or_env rt config)) as [model url].
    simpl in H. now rewrite (no_backend_test _ _ H).
  - exact Hs.
  - unfold invoke_llm. now rewrite Hs.
Qed.

(** C2 with no configuration passed and an empty environment, and with a
    configuration that names a model but no url. *)
Lemma dispatcher_without_backend_witness :
  (invoke_llm (runtime_replying (Ok (streaming hel_lo_done))) PNone user_messages None false
     = Awaited (mkCall (Ok (PDict [("error", PStr "No LLM service available for model")])) [])
   /\ stream_llm (runtime_replying (Ok (streaming hel_lo_done))) PNone user_messages None
      = mkGen [PStr "Error: No LLM service available for model"] None []
   /\ invoke_llm (runtime_replying (Ok (streaming hel_lo_done))) PNone user_messages None true
      = AsyncGen (mkGen [PStr "Error: No LLM service available for model"] None []))
  /\ stream_llm (runtime_replying (Ok (streaming hel_lo_done))) PNone user_messages
       (Some (EnvConfig.mk None (Some "fast-model") (Some EmptyString) (Some "local-model")))
     = mkGen [PStr "Error: No LLM service available for model"] None [].
Proof.
  split.
  - apply (dispatcher_without_backend
             (runtime_replying (Ok (streaming hel_lo_done))) PNone user_messages None).
    left. exact not_non_empty_none.
  - apply (dispatcher_without_backend
             (runtime_replying (Ok (streaming hel_lo_done))) PNone user_messages
             (Some (EnvConfig.mk None (Some "fast-model") (Some EmptyString) (Some "local-model")))).
    left. exact not_non_empty_none.
Defined.

(** ** The loop over the lines of a response *)

Section AsyncFor.

Variable body : string -> step.

(** A line on which the body falls through leaves no trace. *)
Lemma async_for_continue (pre suf : list string) (line : string) (broken : option exn) :
  body line = Continue ->
  async_for body (pre ++ line :: suf) broken = async_for body (pre ++ suf) broken.
Proof.
  intros Hline. induction pre as [|l pre IH]; simpl.
  - now rewrite Hline.
  - destruct (body l); try reflexivity; now rewrite IH.
Qed.

(** Removing the lines of a class on which the body always falls through
    changes nothing. *)
Lemma async_for_filter (drop : string -> bool) (lines : list string) (broken : option exn) :
  (forall line, drop line = true -> body line = Continue) ->
  async_for body (filter (fun line => negb (drop line)) lines) broken
  = async_for body lines broken.
Proof.
  intros Hdrop. induction lines as [|l lines IH]; simpl; [reflexivity|].
  destruct (drop l) eqn:Hl; simpl.
  - now rewrite (Hdrop l Hl).
  - destruct (body l); try reflexivity; now rewrite IH.
Qed.

(** A [break] ends the loop as if the response had closed before that line:
    what follows it, and how the connection ends, no longer matter. *)
Lemma async_for_break (pre post : list string) (line : string) (broken : option exn) :
  body line = Break ->
  async_for body (pre ++ line :: post) broken = async_for body pre None.
Proof.
  intros Hline. induction pre as [|l pre IH]; simpl.
  - now rewrite Hline.
  - destruct (body l); try reflexivity; now rewrite IH.
Qed.

(** When the body never leaves the loop and never raises, the loop yields the
    item of every yielding line, in order, and ends as the connection does. *)
Lemma async_for_yields (lines : list string) (broken : option exn) :
  Forall (fun line => body line <> Break /\ forall e, body line <> Throw e) lines ->
  async_for body lines broken
  = (flat_map (fun line => match body line with Yield item => [item] | _ => [] end) lines,
     broken).
Proof.
  induction 1 as [|l lines [Hb Ht] _ IH]; simpl; [reflexivity|].
  destruct (body l) as [|item| |e] eqn:Hl.
  - exact IH.
  - now rewrite IH.
  - congruence.
  - now elim (Ht e).
Qed.

End AsyncFor.

(** ** The end marker of the vLLM stream *)

Lemma stream_llm_vllm_body_done (rt : Runtime) (line : string) :
  vllm_raw_line line = "[DONE]" -> stream_llm_vllm_body rt line = Break.
Proof.
  intros Hraw. unfold stream_llm_vllm_body. rewrite Hraw. simpl.
  destruct line; [discriminate Hraw | reflexivity].
Qed.

(** [stream_llm_vllm] once its request is built and answered with 200. *)
Lemma stream_llm_vllm_200 (rt : Runtime)
    (model prompt messages temperature top_p top_k seed payload : pyval)
    (response : Response) :
  vllm_payload model prompt messages temperature top_p top_k seed true = Ok payload ->
  send rt (mkRequest "POST" (vllm_url rt) payload true) = Ok response ->
  status_code response = 200 ->
  stream_llm_vllm rt model prompt messages temperature top_p top_k seed
  = mkGen
      (fst (async_for (stream_llm_vllm_body rt) (aiter_lines response) (aiter_broken response)))
      (snd (async_for (stream_llm_vllm_body rt) (aiter_lines response) (aiter_broken response)))
      [mkRequest "POST" (vllm_url rt) payload true].
Proof.
  intros Hp Hs H200. unfold stream_llm_vllm. rewrite Hp, Hs, H200. simpl.
  now destruct (async_for _ _ _).
Qed.

(** C3. On an HTTP 200 response whose body lines are the two chunks carrying
    ["Hel"] and ["lo"] and then [data: [DONE]], [stream_llm_vllm] yields
    exactly ["Hel"], ["lo"] and ends without an exception, whatever lines
    follow and however the connection ends afterwards.  In general a
    ["[DONE]"] line, with or without the [data: ] prefix, ends the loop as a
    clean end of the response before that line would: the lines after it are
    never processed and no exception results from it. *)
Theorem stream_llm_vllm_done :
  (forall (model : pyval) (post : list string) (broken : option exn),
      let rt := runtime_replying
                  (Ok (mkResponse 200 EmptyString EmptyString (hel_lo_done ++ post) broken)) in
      let g := stream_llm_vllm rt model PNone user_messages
                 default_temperature default_top_p default_top_k default_seed in
      yielded g = [PStr "Hel"; PStr "lo"] /\ raised g = None
      /\ List.length (gen_calls g) = 1%nat)
  /\ (forall (rt : Runtime) (pre post : list string) (broken : option exn),
         async_for (stream_llm_vllm_body rt) (pre ++ "data: [DONE]" :: post) broken
         = async_for (stream_llm_vllm_body rt) pre None
         /\ async_for (stream_llm_vllm_body rt) (pre ++ "[DONE]" :: post) broken
            = async_for (stream_llm_vllm_body rt) pre None).
Proof.
  split.
  - intros model post broken. cbv zeta.
    erewrite stream_llm_vllm_200; [| reflexivity | reflexivity | reflexivity].
    cbn [aiter_lines aiter_broken yielded raised gen_calls].
    change (hel_lo_done ++ post)
      with ([ dq "data: {'choices':[{'delta':{'content':'Hel'}}]}";
              dq "data: {'choices':[{'delta':{'content':'lo'}}]}" ]
              ++ "data: [DONE]" :: post).
    rewrite async_for_break by (apply stream_llm_vllm_body_done; reflexivity).
    vm_compute. repeat split.
  - intros rt pre post broken.
    split; apply async_for_break; apply stream_llm_vllm_body_done; reflexivity.
Qed.

(** ** The [data: ] prefix *)

Lemma lstrip_member (chars : string) (c : ascii) (rest : string) :
  char_in c chars = true -> lstrip chars (String c rest) = lstrip chars rest.
Proof. intros H. simpl. now rewrite H. Qed.

Lemma lstrip_stops (chars : string) (c : ascii) (rest : string) :
  char_in c chars = false -> lstrip chars (String c rest) = String c rest.
Proof. intros H. simpl. now rewrite H. Qed.

(** When the text after [data: ] starts with a character outside
    [{d, a, t, :, space}], as a JSON object or ["[DONE]"] does, [lstrip]
    removes exactly the prefix. *)
Lemma lstrip_data_prefix_exact (c : ascii) (rest : string) :
  char_in c "data: " = false ->
  lstrip "data: " ("data: " ++ String c rest) = String c rest.
Proof.
  intros Hc. cbn [append].
  repeat (rewrite lstrip_member by reflexivity).
  now apply lstrip_stops.
Qed.

(** X28. On a line that starts with [data: ] followed by a character other
    than [d], [a], [t], [:] and space, as every chunk and the end marker of a
    vLLM server do, the processed line is what removing the prefix and
    trimming white space gives. *)
Lemma vllm_raw_line_exact (c : ascii) (rest : string) :
  char_in c "data: " = false ->
  vllm_raw_line ("data: " ++ String c rest)
  = strip_data_prefix ("data: " ++ String c rest).
Proof.
  intros Hc. unfold vllm_raw_line, strip_data_prefix.
  now rewrite lstrip_data_prefix_exact.
Qed.

(** C4 (the code departs from the claim).  [line.lstrip("data: ")] removes
    every leading character among [d], [a], [t], [:] and the space, not one
    leading occurrence of the text [data: ]:
    - [data: today] is processed to [oday], where the claim gives [today];
    - [data:data: [DONE]] is processed to ["[DONE]"], where the claim leaves
      the line as it is, since it does not start with [data: ];
    - the corrupt line [data: t{...}] is processed to the chunk [{...}], so
      the stream yields its content, where the claim's processing leaves text
      that is not JSON. *)
Theorem vllm_raw_line_strips_characters :
  (vllm_raw_line "data: today" = "oday"
   /\ strip_data_prefix "data: today" = "today")
  /\ (vllm_raw_line "data:data: [DONE]" = "[DONE]"
      /\ strip_data_prefix "data:data: [DONE]" = "data:data: [DONE]")
  /\ (let line := dq "data: t{'choices':[{'delta':{'content':'x'}}]}" in
      let rt := runtime_replying (Ok (streaming [line])) in
      vllm_raw_line line = dq "{'choices':[{'delta':{'content':'x'}}]}"
      /\ strip_data_prefix line = dq "t{'choices':[{'delta':{'content':'x'}}]}"
      /\ yielded (stream_llm_vllm rt (PStr "m") PNone user_messages
                    default_temperature default_top_p default_top_k default_seed)
         = [PStr "x"]
      /\ is_JSONDecodeError_result (json_loads rt (strip_data_prefix line)) = true).
Proof. vm_compute. repeat split. Qed.

(** ** Lines that do not parse *)

Lemma vllm_malformed_continue (rt : Runtime) (line : string) :
  vllm_malformed rt line = true -> stream_llm_vllm_body rt line = Continue.
Proof.
  unfold vllm_malformed, stream_llm_vllm_body. intros H.
  apply andb_true_iff in H as [H Hj]. apply andb_true_iff in H as [Ht Hd].
  rewrite Ht. apply negb_true_iff in Hd. rewrite Hd.
  destruct (json_loads rt (vllm_raw_line line)) as [data|e]; [discriminate|].
  simpl. now rewrite Hj.
Qed.

Lemma ollama_malformed_continue (rt : Runtime) (line : string) :
  ollama_malformed rt line = true -> stream_llm_ollama_body rt line = Continue.
Proof.
  unfold ollama_malformed, stream_llm_ollama_body. intros H.
  apply andb_true_iff in H as [Ht Hj]. rewrite Ht.
  destruct (json_loads rt line) as [data|e]; [discriminate|].
  simpl. now rewrite Hj.
Qed.

(** Inversion of the primitives the adapters chain. *)
Lemma bind_ok {A B : Type} (r : result A) (k : A -> result B) (b : B) :
  bind r k = Ok b -> exists a, r = Ok a /\ k a = Ok b.
Proof. destruct r as [a|e]; simpl; [eauto | discriminate]. Qed.

Lemma bind_raise {A B : Type} (r : result A) (k : A -> result B) (e : exn) :
  bind r k = Raise e -> r = Raise e \/ exists a, r = Ok a /\ k a = Raise e.
Proof. destruct r as [a|e']; simpl; [eauto | intros [= ->]; now left]. Qed.

Lemma py_get_ok (v : pyval) (key : string) (default x : pyval) :
  py_get v key default = Ok x ->
  exists d, v = PDict d
            /\ x = match dict_lookup key d with Some y => y | None => default end.
Proof.
  destruct v; simpl; try discriminate.
  intros H. eexists; split; [reflexivity|].
  destruct (dict_lookup key d); now inversion H.
Qed.

Lemma py_get_raise (v : pyval) (key : string) (default : pyval) (e : exn) :
  py_get v key default = Raise e -> exn_class_of e = AttributeError.
Proof.
  destruct v; simpl; try (intros [= <-]; reflexivity).
  destruct (dict_lookup key d); discriminate.
Qed.

Lemma py_getitem_int_raise (v : pyval) (i : nat) (e : exn) :
  py_getitem_int v i = Raise e -> is_JSONDecodeError e = false.
Proof.
  destruct v; cbn -[char_at nth_error]; try (intros [= <-]; reflexivity).
  - destruct (char_at i s); [discriminate | intros [= <-]; reflexivity].
  - destruct (nth_error l i); [discriminate | intros [= <-]; reflexivity].
Qed.

Lemma py_getitem_int_dict (v : pyval) (d : list (string * pyval)) :
  py_getitem_int v 0 = Ok (PDict d) -> exists l, v = PList (PDict d :: l).
Proof.
  destruct v; cbn -[char_at nth_error]; try discriminate.
  - destruct (char_at 0 s); discriminate.
  - destruct l as [|x l]; cbn; [discriminate|]. intros [= ->]. now exists l.
Qed.

(** The chain of [get] calls raises no decoding error. *)
Lemma first_choice_content_raise (data : pyval) (field : string) (e : exn) :
  first_choice_content data field = Raise e -> is_JSONDecodeError e = false.
Proof.
  unfold first_choice_content, is_JSONDecodeError. intros H.
  apply bind_raise in H as [H|(choices & _ & H)];
    [apply py_get_raise in H; now rewrite H|].
  apply bind_raise in H as [H|(first & _ & H)];
    [now apply py_getitem_int_raise in H|].
  apply bind_raise in H as [H|(inner & _ & H)];
    apply py_get_raise in H; now rewrite H.
Qed.

(** Where the chain of [get] calls succeeds, it reads the content that
    [vllm_delta] describes. *)
Lemma first_choice_content_delta (data content : pyval) :
  first_choice_content data "delta" = Ok content ->
  vllm_delta data = if truthy content then [content] else [].
Proof.
  unfold first_choice_content. intros H.
  apply bind_ok in H as (choices & Hchoices & H).
  apply bind_ok in H as (first & Hfirst & H).
  apply bind_ok in H as (inner & Hinner & H).
  apply py_get_ok in Hchoices as (d & -> & ->).
  apply py_get_ok in Hinner as (choice & -> & ->).
  apply py_get_ok in H as (delta & Hdelta & ->).
  apply py_getitem_int_dict in Hfirst as (l & Hl).
  unfold vllm_delta.
  destruct (dict_lookup "choices" d) as [choices|].
  - subst choices.
    destruct (dict_lookup "delta" choice) as [inner|].
    + subst inner. now destruct (dict_lookup "content" delta).
    + inversion Hdelta; subst. reflexivity.
  - inversion Hl; subst. simpl in Hdelta. inversion Hdelta; subst. reflexivity.
Qed.

Lemma stream_llm_vllm_body_deltas (rt : Runtime) (line : string) :
  vllm_raw_line line <> "[DONE]" ->
  (forall e, stream_llm_vllm_body rt line <> Throw e) ->
  stream_llm_vllm_body rt line <> Break
  /\ match stream_llm_vllm_body rt line with Yield item => [item] | _ => [] end
     = line_deltas rt vllm_raw_line vllm_delta line.
Proof.
  intros Hd Ht. unfold stream_llm_vllm_body, line_deltas in *.
  destruct (truthy (PStr line)); [|split; [discriminate|reflexivity]].
  apply String.eqb_neq in Hd. rewrite Hd in *.
  destruct (json_loads rt (vllm_raw_line line)) as [data|e]; cbn [bind] in *.
  - destruct (first_choice_content data "delta") as [content|e] eqn:Hc.
    + rewrite (first_choice_content_delta _ _ Hc).
      destruct (truthy content); split; (discriminate || reflexivity).
    + rewrite (first_choice_content_raise _ _ _ Hc) in Ht. now elim (Ht e).
  - destruct (is_JSONDecodeError e); [split; [discriminate|reflexivity]|now elim (Ht e)].
Qed.

Lemma py_contains_str_dict (key : string) (d : list (string * pyval)) :
  py_contains_str key (PDict d)
  = Ok match dict_lookup key d with Some _ => true | None => false end.
Proof.
  unfold py_contains_str, dict_keys. f_equal.
  induction d as [|[k v] d IH]; cbn -[String.eqb]; [reflexivity|].
  destruct (String.eqb key k); [reflexivity | exact IH].
Qed.

(** What the Ollama loop body does with a decoded line. *)
Lemma stream_llm_ollama_body_decoded (rt : Runtime) (line : string) (data : pyval) :
  truthy (PStr line) = true ->
  json_loads rt line = Ok data ->
  stream_llm_ollama_body rt line
  = match data with
    | PDict d =>
        match dict_lookup "response" d with
        | Some item => Yield item
        | None => Continue
        end
    | PList l =>
        if existsb (fun x => match x with PStr s => String.eqb s "response" | _ => false end) l
        then Throw (mkExn TypeError "list indices must be integers or slices, not str")
        else Continue
    | PStr s =>
        if is_substring "response" s
        then Throw (mkExn TypeError "string indices must be integers, not 'str'")
        else Continue
    | other =>
        Throw (mkExn TypeError
                 ("argument of type '" ++ type_name other ++ "' is not iterable")%string)
    end.
Proof.
  intros Ht Hj. unfold stream_llm_ollama_body. rewrite Ht, Hj. cbn [bind].
  destruct data as [| | | |s|l|d]; try reflexivity.
  - cbn [py_contains_str bind]. now destruct (is_substring "response" s).
  - cbn [py_contains_str bind]. now destruct (existsb _ l).
  - rewrite py_contains_str_dict. cbn [bind py_getitem_str].
    now destruct (dict_lookup "response" d).
Qed.

Lemma stream_llm_ollama_body_deltas (rt : Runtime) (line : string) :
  (forall e, stream_llm_ollama_body rt line <> Throw e) ->
  stream_llm_ollama_body rt line <> Break
  /\ match stream_llm_ollama_body rt line with Yield item => [item] | _ => [] end
     = line_deltas rt (fun l => l) ollama_delta line.
Proof.
  intros Ht. unfold line_deltas.
  destruct (truthy (PStr line)) eqn:Hline.
  - destruct (json_loads rt line) as [data|e] eqn:Hj.
    + rewrite (stream_llm_ollama_body_decoded _ _ _ Hline Hj) in *.
      destruct data as [| | | |s|l|d]; try (exfalso; eapply Ht; reflexivity).
      * destruct (is_substring "response" s);
          [exfalso; eapply Ht; reflexivity | split; [discriminate|reflexivity]].
      * destruct (existsb _ l);
          [exfalso; eapply Ht; reflexivity | split; [discriminate|reflexivity]].
      * unfold ollama_delta.
        destruct (dict_lookup "response" d); split; (discriminate || reflexivity).
    + unfold stream_llm_ollama_body in *. rewrite Hline, Hj in *. cbn [bind] in *.
      destruct (is_JSONDecodeError e);
        [split; [discriminate|reflexivity] | now elim (Ht e)].
  - unfold stream_llm_ollama_body. rewrite Hline. split; [discriminate|reflexivity].
Qed.

(** The vLLM loop only sees the lines before the first ["[DONE]"]. *)
Lemma async_for_before_done (rt : Runtime) (lines : list string) (broken : option exn) :
  async_for (stream_llm_vllm_body rt) lines broken
  = async_for (stream_llm_vllm_body rt) (before_done lines)
      (if has_done lines then None else broken).
Proof.
  induction lines as [|l lines IH]; simpl; [reflexivity|].
  destruct (String.eqb (vllm_raw_line l) "[DONE]") eqn:Hd; simpl.
  - apply String.eqb_eq in Hd. now rewrite stream_llm_vllm_body_done.
  - destruct (stream_llm_vllm_body rt l); try reflexivity; now rewrite IH.
Qed.

Lemma before_done_no_done (lines : list string) :
  Forall (fun line => vllm_raw_line line <> "[DONE]") (before_done lines).
Proof.
  induction lines as [|l lines IH]; simpl; [constructor|].
  destruct (String.eqb (vllm_raw_line l) "[DONE]") eqn:Hd; [constructor|].
  constructor; [now apply String.eqb_neq | exact IH].
Qed.

Lemma flat_map_agree {A B : Type} (f g : A -> list B) (l : list A) :
  (forall x, In x l -> f x = g x) -> flat_map f l = flat_map g l.
Proof.
  induction l as [|x l IH]; simpl; intros H; [reflexivity|].
  rewrite (H x) by now left. rewrite IH; [reflexivity|].
  intros y Hy. apply H. now right.
Qed.

(** [stream_llm_ollama] once its request is answered. *)
Lemma stream_llm_ollama_sent (rt : Runtime) (model prompt messages : pyval)
    (response : Response) :
  (forall request, send rt request = Ok response) ->
  yielded (stream_llm_ollama rt model prompt messages)
  = fst (async_for (stream_llm_ollama_body rt) (aiter_lines response) (aiter_broken response))
  /\ raised (stream_llm_ollama rt model prompt messages)
     = snd (async_for (stream_llm_ollama_body rt) (aiter_lines response) (aiter_broken response)).
Proof.
  intros Hs. unfold stream_llm_ollama. rewrite Hs.
  now destruct (async_for _ _ _).
Qed.

(** C5 (amended).  For both streaming adapters and any line sequence, the
    lines whose JSON parse fails are skipped: the loop run on the sequence
    without them yields the same items and ends the same way, so such a line
    neither terminates the sequence nor surfaces an error, and the lines after
    it are treated as they would be without it.  When moreover no line makes
    the loop body raise (each line that decodes is a chunk the delta can be
    read from), the output is the deltas of the parseable lines only, in
    order; for vLLM these are the lines before the first ["[DONE]"], and the
    stream then ends cleanly, while otherwise it ends as the connection
    does. *)
Theorem malformed_lines_are_skipped (rt : Runtime) (lines : list string)
    (broken : option exn) :
  async_for (stream_llm_vllm_body rt)
    (filter (fun line => negb (vllm_malformed rt line)) lines) broken
  = async_for (stream_llm_vllm_body rt) lines broken
  /\ async_for (stream_llm_ollama_body rt)
       (filter (fun line => negb (ollama_malformed rt line)) lines) broken
     = async_for (stream_llm_ollama_body rt) lines broken
  /\ (never_raises (stream_llm_vllm_body rt) (before_done lines) ->
      async_for (stream_llm_vllm_body rt) lines broken
      = (deltas_of_parseable rt vllm_raw_line vllm_delta (before_done lines),
         if has_done lines then None else broken))
  /\ (never_raises (stream_llm_ollama_body rt) lines ->
      async_for (stream_llm_ollama_body rt) lines broken
      = (deltas_of_parseable rt (fun line => line) ollama_delta lines, broken)).
Proof.
  split; [|split; [|split]].
  - apply async_for_filter. apply vllm_malformed_continue.
  - apply async_for_filter. apply ollama_malformed_continue.
  - intros Hn. rewrite async_for_before_done.
    pose proof (before_done_no_done lines) as Hd.
    unfold never_raises in Hn. rewrite Forall_forall in Hn, Hd.
    rewrite async_for_yields.
    + f_equal. unfold deltas_of_parseable. apply flat_map_agree.
      intros l Hl. now apply stream_llm_vllm_body_deltas; auto.
    + apply Forall_forall. intros l Hl. split; [|now apply Hn].
      now apply stream_llm_vllm_body_deltas; auto.
  - intros Hn. unfold never_raises in Hn. rewrite Forall_forall in Hn.
    rewrite async_for_yields.
    + f_equal. unfold deltas_of_parseable. apply flat_map_agree.
      intros l Hl. now apply stream_llm_ollama_body_deltas; auto.
    + apply Forall_forall. intros l Hl. split; [|now apply Hn].
      now apply stream_llm_ollama_body_deltas; auto.
Qed.

(** C5 (amended) on concrete streams: a line that does not parse between two
    chunks, for each adapter, with the reference decoder. *)
Lemma malformed_lines_are_skipped_witness :
  let rt := runtime_replying (Ok (streaming [])) in
  async_for (stream_llm_vllm_body rt)
    [ dq "data: {'choices':[{'delta':{'content':'Hel'}}]}";
      "data: {'choices': oops";
      dq "data: {'choices':[{'delta':{'content':'lo'}}]}";
      "data: [DONE]";
      dq "data: {'choices':[{'delta':{'content':'late'}}]}" ] None
  = ([PStr "Hel"; PStr "lo"], None)
  /\ async_for (stream_llm_ollama_body rt)
       [ dq "{'response':'Hel'}"; "{'response': oops"; dq "{'response':'lo'}" ] None
     = ([PStr "Hel"; PStr "lo"], None).
Proof.
  cbv zeta. split.
  - refine (eq_trans
              (proj1 (proj2 (proj2
                 (malformed_lines_are_skipped (runtime_replying (Ok (streaming [])))
                    [ dq "data: {'choices':[{'delta':{'content':'Hel'}}]}";
                      "data: {'choices': oops";
                      dq "data: {'choices':[{'delta':{'content':'lo'}}]}";
                      "data: [DONE]";
                      dq "data: {'choices':[{'delta':{'content':'late'}}]}" ] None))) _) _).
    + repeat constructor; intros e H; vm_compute in H; discriminate H.
    + vm_compute. reflexivity.
  - refine (eq_trans
              (proj2 (proj2 (proj2
                 (malformed_lines_are_skipped (runtime_replying (Ok (streaming [])))
                    [ dq "{'response':'Hel'}"; "{'response': oops";
                      dq "{'response':'lo'}" ] None))) _) _).
    + repeat constructor; intros e H; vm_compute in H; discriminate H.
    + vm_compute. reflexivity.
Defined.

(** C5 as stated fails: a line that parses, but not to a chunk, ends the
    stream with an exception, and the valid line after it yields nothing.
    With the lines [null] and [{"response":"x"}], [stream_llm_ollama] yields
    no item and raises the [TypeError] of ['response' in None], while the
    deltas of the parseable lines are the single item ["x"]; with [data: null]
    and a chunk carrying ["x"], [stream_llm_vllm] yields no item and raises
    the [AttributeError] of [None.get]. *)
Lemma parseable_line_ends_the_stream :
  (let lines := [ "null"; dq "{'response':'x'}" ] in
   let rt := runtime_replying (Ok (streaming lines)) in
   let g := stream_llm_ollama rt (PStr "local-model") PNone user_messages in
   json_loads rt "null" = Ok PNone
   /\ yielded g = []
   /\ raised g = Some (mkExn TypeError "argument of type 'NoneType' is not iterable")
   /\ deltas_of_parseable rt (fun line => line) ollama_delta lines = [PStr "x"]
   /\ yielded g <> deltas_of_parseable rt (fun line => line) ollama_delta lines)
  /\ (let lines := [ "data: null"; dq "data: {'choices':[{'delta':{'content':'x'}}]}" ] in
      let rt := runtime_replying (Ok (streaming lines)) in
      let g := stream_llm_vllm rt (PStr "fast-model") PNone user_messages
                 default_temperature default_top_p default_top_k default_seed in
      json_loads rt (vllm_raw_line "data: null") = Ok PNone
      /\ yielded g = []
      /\ raised g = Some (mkExn AttributeError "'NoneType' object has no attribute 'get'")
      /\ deltas_of_parseable rt vllm_raw_line vllm_delta lines = [PStr "x"]
      /\ yielded g <> deltas_of_parseable rt vllm_raw_line vllm_delta lines).
Proof.
  cbv zeta. split; vm_compute; repeat split; discriminate.
Qed.

(** ** The payload of the Ollama adapter *)

(** C6. Every call of [invoke_llm_ollama] and of [stream_llm_ollama] issues
    exactly one request, and the [options] field of its payload is exactly
    [{top_k: 1, top_p: 0, temperature: 0, seed: 100, num_ctx: 4096}],
    whatever the runtime and whatever arguments the caller passes. *)
Theorem ollama_options_are_fixed (rt : Runtime) (ollama_model prompt messages : pyval) :
  map (payload_field "options") (calls (invoke_llm_ollama rt ollama_model prompt messages))
  = [ Ok (PDict [ ("top_k", PInt 1); ("top_p", PInt 0); ("temperature", PInt 0);
                  ("seed", PInt 100); ("num_ctx", PInt 4096) ]) ]
  /\ map (payload_field "options")
       (gen_calls (stream_llm_ollama rt ollama_model prompt messages))
     = [ Ok (PDict [ ("top_k", PInt 1); ("top_p", PInt 0); ("temperature", PInt 0);
                     ("seed", PInt 100); ("num_ctx", PInt 4096) ]) ].
Proof.
  split.
  - reflexivity.
  - unfold stream_llm_ollama.
    destruct (send rt _) as [response|e]; [|reflexivity].
    now destruct (async_for _ _ _).
Qed.

(** C9. [invoke_llm_ollama] ignores its [ollama_model] argument: two calls
    that differ only in that argument are the same call, request and result,
    and the [model] field of the payload is the current value of the
    environment variable [OLLAMA_MODEL] ([None] when it is unset).
    [stream_llm_ollama] puts the argument it is given in that field. *)
Theorem invoke_llm_ollama_ignores_model (rt : Runtime)
    (model1 model2 prompt messages : pyval) :
  invoke_llm_ollama rt model1 prompt messages = invoke_llm_ollama rt model2 prompt messages
  /\ map (payload_field "model") (calls (invoke_llm_ollama rt model1 prompt messages))
     = [ Ok (of_opt (getenv rt "OLLAMA_MODEL")) ]
  /\ map (payload_field "model") (gen_calls (stream_llm_ollama rt model1 prompt messages))
     = [ Ok model1 ].
Proof.
  split; [reflexivity|]. split; [reflexivity|].
  unfold stream_llm_ollama.
  destruct (send rt _) as [response|e]; [|reflexivity].
  now destruct (async_for _ _ _).
Qed.

(** ** The dispatcher, case by case *)

Lemma dispatch_test (c : EnvConfig.t) :
  (let (model, url) := EnvConfig.get_model_and_url c in
   negb (truthy (of_opt model)) || negb (truthy (of_opt url)))
  = negb (EnvConfig.is_vllm_available c || EnvConfig.is_ollama_available c).
Proof.
  unfold EnvConfig.get_model_and_url.
  destruct (EnvConfig.is_vllm_available c) eqn:Hv.
  - apply is_vllm_available_iff in Hv as [Hu Hm].
    apply truthy_of_opt_iff in Hu, Hm. now rewrite Hu, Hm.
  - destruct (EnvConfig.is_ollama_available c) eqn:Ho.
    + apply is_ollama_available_iff in Ho as [Hu Hm].
      apply truthy_of_opt_iff in Hu, Hm. now rewrite Hu, Hm.
    + reflexivity.
Qed.

Lemma stream_llm_cases (rt : Runtime) (prompt messages : pyval) (c : EnvConfig.t) :
  stream_llm rt prompt messages (Some c)
  = if EnvConfig.is_vllm_available c then
      stream_llm_vllm rt (of_opt (EnvConfig.vllm_model c)) prompt messages
        default_temperature default_top_p default_top_k default_seed
    else if EnvConfig.is_ollama_available c then
      stream_llm_ollama rt (of_opt (EnvConfig.ollama_model c)) prompt messages
    else mkGen [PStr "Error: No LLM service available for model"] None [].
Proof.
  unfold stream_llm. cbn [config_or_env].
  pose proof (dispatch_test c) as Ht. unfold EnvConfig.get_model_and_url in *.
  destruct (EnvConfig.is_vllm_available c), (EnvConfig.is_ollama_available c);
    rewrite Ht; reflexivity.
Qed.

Lemma invoke_llm_cases (rt : Runtime) (prompt messages : pyval) (c : EnvConfig.t) :
  invoke_llm rt prompt messages (Some c) false
  = if EnvConfig.is_vllm_available c then
      Awaited (invoke_llm_vllm rt (of_opt (EnvConfig.vllm_model c)) prompt messages
                 default_temperature default_top_p default_top_k default_seed)
    else if EnvConfig.is_ollama_available c then
      Awaited (invoke_llm_ollama rt (of_opt (EnvConfig.ollama_model c)) prompt messages)
    else Awaited (mkCall (Ok (PDict [("error", PStr "No LLM service available for model")])) []).
Proof.
  unfold invoke_llm. cbn [config_or_env].
  pose proof (dispatch_test c) as Ht. unfold EnvConfig.get_model_and_url in *.
  destruct (EnvConfig.is_vllm_available c), (EnvConfig.is_ollama_available c);
    rewrite Ht; reflexivity.
Qed.

(** ** The requests of the operations *)

Lemma vllm_payload_with_messages
    (model prompt messages temperature top_p top_k seed : pyval) (stream : bool) :
  truthy messages = true ->
  vllm_payload model prompt messages temperature top_p top_k seed stream
  = Ok (PDict [ ("model", model); ("messages", messages);
                ("temperature", temperature); ("top_p", top_p);
                ("top_k", top_k); ("seed", seed); ("stream", PBool stream) ]).
Proof. intros H. unfold vllm_payload. now rewrite H. Qed.

Lemma vllm_payload_fields (model prompt messages temperature top_p top_k seed payload : pyval)
    (stream : bool) :
  vllm_payload model prompt messages temperature top_p top_k seed stream = Ok payload ->
  exists msgs,
    payload = PDict [ ("model", model); ("messages", msgs);
                      ("temperature", temperature); ("top_p", top_p);
                      ("top_k", top_k); ("seed", seed); ("stream", PBool stream) ].
Proof.
  unfold vllm_payload. intros H.
  apply bind_ok in H as (msgs & _ & H). inversion H. now exists msgs.
Qed.

Lemma invoke_llm_vllm_calls (rt : Runtime)
    (model prompt messages temperature top_p top_k seed : pyval) :
  calls (invoke_llm_vllm rt model prompt messages temperature top_p top_k seed)
  = match vllm_payload model prompt messages temperature top_p top_k seed false with
    | Ok payload => [mkRequest "POST" (vllm_url rt) payload false]
    | Raise _ => []
    end.
Proof. unfold invoke_llm_vllm. now destruct (vllm_payload _ _ _ _ _ _ _ _). Qed.

Lemma stream_llm_vllm_calls (rt : Runtime)
    (model prompt messages temperature top_p top_k seed : pyval) :
  gen_calls (stream_llm_vllm rt model prompt messages temperature top_p top_k seed)
  = match vllm_payload model prompt messages temperature top_p top_k seed true with
    | Ok payload => [mkRequest "POST" (vllm_url rt) payload true]
    | Raise _ => []
    end.
Proof.
  unfold stream_llm_vllm.
  destruct (vllm_payload _ _ _ _ _ _ _ _); [|reflexivity].
  destruct (send rt _) as [response|e]; [|reflexivity].
  destruct (status_code response =? 200); [|reflexivity].
  now destruct (async_for _ _ _).
Qed.

Lemma stream_llm_ollama_calls (rt : Runtime) (model prompt messages : pyval) :
  gen_calls (stream_llm_ollama rt model prompt messages)
  = [mkRequest "POST" (Some (ollama_endpoint rt))
       (PDict [ ("prompt", prompt); ("messages", messages); ("model", model);
                ("options", ollama_options); ("stream", PBool true) ])
       true].
Proof.
  unfold stream_llm_ollama.
  destruct (send rt _) as [response|e]; [|reflexivity].
  now destruct (async_for _ _ _).
Qed.

(** The requests of the dispatcher, backend by backend. *)
Lemma requests_of_invoke_llm (rt : Runtime) (prompt messages : pyval)
    (c : EnvConfig.t) (stream : bool) :
  requests_of (invoke_llm rt prompt messages (Some c) stream)
  = if EnvConfig.is_vllm_available c then
      match vllm_payload (of_opt (EnvConfig.vllm_model c)) prompt messages
              default_temperature default_top_p default_top_k default_seed stream with
      | Ok payload => [mkRequest "POST" (vllm_url rt) payload stream]
      | Raise _ => []
      end
    else if EnvConfig.is_ollama_available c then
      [mkRequest "POST" (Some (ollama_endpoint rt))
         (if stream then
            PDict [ ("prompt", prompt); ("messages", messages);
                    ("model", of_opt (EnvConfig.ollama_model c));
                    ("options", ollama_options); ("stream", PBool true) ]
          else
            PDict [ ("messages", messages); ("prompt", prompt);
                    ("model", of_opt (getenv rt "OLLAMA_MODEL"));
                    ("options", ollama_options); ("stream", PBool false) ])
         stream]
    else [].
Proof.
  destruct stream.
  - unfold invoke_llm. cbn [requests_of]. rewrite stream_llm_cases.
    destruct (EnvConfig.is_vllm_available c); [apply stream_llm_vllm_calls|].
    destruct (EnvConfig.is_ollama_available c); [apply stream_llm_ollama_calls|reflexivity].
  - rewrite invoke_llm_cases.
    destruct (EnvConfig.is_vllm_available c);
      [cbn [requests_of]; apply invoke_llm_vllm_calls|].
    destruct (EnvConfig.is_ollama_available c); reflexivity.
Qed.

Lemma invoke_llm_none (rt : Runtime) (prompt messages : pyval) (stream : bool) :
  invoke_llm rt prompt messages None stream
  = invoke_llm rt prompt messages (Some (EnvConfig.__init__ (getenv rt))) stream.
Proof. reflexivity. Qed.

(** A payload that builds is the same for every model, sampling parameter
    and mode, up to those fields. *)
Lemma payload_builds_ok (prompt messages : pyval) :
  payload_builds prompt messages ->
  exists msgs,
    forall model temperature top_p top_k seed stream,
      vllm_payload model prompt messages temperature top_p top_k seed stream
      = Ok (PDict [ ("model", model); ("messages", msgs);
                    ("temperature", temperature); ("top_p", top_p);
                    ("top_k", top_k); ("seed", seed); ("stream", PBool stream) ]).
Proof.
  intros [Hm|[Hm (system & user & H0 & H1)]].
  - exists messages. intros. now apply vllm_payload_with_messages.
  - exists (PList [ PDict [("role", PStr "system"); ("content", system)];
                    PDict [("role", PStr "user"); ("content", user)] ]).
    intros. unfold vllm_payload. now rewrite Hm, H0, H1.
Qed.

(** ** The urls contacted *)

Lemma invoke_llm_vllm_url (rt : Runtime)
    (model prompt messages temperature top_p top_k seed : pyval) :
  Forall (fun r => url r = vllm_url rt)
    (calls (invoke_llm_vllm rt model prompt messages temperature top_p top_k seed)).
Proof.
  unfold invoke_llm_vllm.
  destruct (vllm_payload _ _ _ _ _ _ _ _); simpl; repeat constructor.
Qed.

Lemma stream_llm_vllm_url (rt : Runtime)
    (model prompt messages temperature top_p top_k seed : pyval) :
  Forall (fun r => url r = vllm_url rt)
    (gen_calls (stream_llm_vllm rt model prompt messages temperature top_p top_k seed)).
Proof.
  unfold stream_llm_vllm.
  destruct (vllm_payload _ _ _ _ _ _ _ _); [|constructor].
  destruct (send rt _) as [response|e]; [|repeat constructor].
  destruct (status_code response =? 200); [|repeat constructor].
  destruct (async_for _ _ _). repeat constructor.
Qed.

Lemma stream_llm_ollama_url (rt : Runtime) (model prompt messages : pyval) :
  map url (gen_calls (stream_llm_ollama rt model prompt messages))
  = [Some (str_opt (ollama_url rt) ++ "/api/generate")%string].
Proof.
  unfold stream_llm_ollama.
  destruct (send rt _) as [response|e]; [|reflexivity].
  now destruct (async_for _ _ _).
Qed.

(** C10. The adapters post to the module globals read at import time: the
    vLLM operations to [vllm_url], the Ollama operations to
    [f"{ollama_url}/api/generate"].  Each Ollama operation issues exactly one
    request, to that url; each vLLM operation whose payload builds issues
    exactly one request, to [vllm_url], and issues none otherwise.  Through
    the dispatcher, with any configuration the caller supplies, the one
    request goes to the global url of the backend the configuration selects;
    the url fields of the configuration decide which backend that is and
    nothing else, so two configurations with the same models and the same
    availability give the same requests and the same result, whatever their
    urls. *)
Theorem adapters_post_to_global_urls (rt : Runtime) (prompt messages : pyval) :
  (forall model temperature top_p top_k seed,
      Forall (fun r => url r = vllm_url rt)
        (calls (invoke_llm_vllm rt model prompt messages temperature top_p top_k seed))
      /\ Forall (fun r => url r = vllm_url rt)
           (gen_calls (stream_llm_vllm rt model prompt messages temperature top_p top_k seed))
      /\ map url (calls (invoke_llm_ollama rt model prompt messages))
         = [Some (str_opt (ollama_url rt) ++ "/api/generate")%string]
      /\ map url (gen_calls (stream_llm_ollama rt model prompt messages))
         = [Some (str_opt (ollama_url rt) ++ "/api/generate")%string]
      /\ (payload_builds prompt messages ->
          map url
            (calls (invoke_llm_vllm rt model prompt messages temperature top_p top_k seed))
          = [vllm_url rt]
          /\ map url
               (gen_calls
                  (stream_llm_vllm rt model prompt messages temperature top_p top_k seed))
             = [vllm_url rt]))
  /\ (forall (config : EnvConfig.t) (stream : bool),
         Forall (fun r => url r = if EnvConfig.is_vllm_available config
                                  then vllm_url rt
                                  else Some (str_opt (ollama_url rt) ++ "/api/generate")%string)
           (requests_of (invoke_llm rt prompt messages (Some config) stream)))
  /\ (forall (config : EnvConfig.t) (stream : bool),
         (EnvConfig.is_vllm_available config = true ->
          payload_builds prompt messages ->
          map url (requests_of (invoke_llm rt prompt messages (Some config) stream))
          = [vllm_url rt])
         /\ (EnvConfig.is_vllm_available config = false ->
             EnvConfig.is_ollama_available config = true ->
             map url (requests_of (invoke_llm rt prompt messages (Some config) stream))
             = [Some (str_opt (ollama_url rt) ++ "/api/generate")%string]))
  /\ (forall (c1 c2 : EnvConfig.t) (stream : bool),
         EnvConfig.vllm_model c1 = EnvConfig.vllm_model c2 ->
         EnvConfig.ollama_model c1 = EnvConfig.ollama_model c2 ->
         EnvConfig.is_vllm_available c1 = EnvConfig.is_vllm_available c2 ->
         EnvConfig.is_ollama_available c1 = EnvConfig.is_ollama_available c2 ->
         invoke_llm rt prompt messages (Some c1) stream
         = invoke_llm rt prompt messages (Some c2) stream).
Proof.
  split; [|split; [|split]].
  - intros model temperature top_p top_k seed.
    split; [apply invoke_llm_vllm_url|].
    split; [apply stream_llm_vllm_url|].
    split; [reflexivity|].
    split; [apply stream_llm_ollama_url|].
    intros Hb. destruct (payload_builds_ok _ _ Hb) as [msgs Hp].
    rewrite invoke_llm_vllm_calls, stream_llm_vllm_calls, !Hp. split; reflexivity.
  - intros config [|].
    + unfold invoke_llm. cbn [requests_of]. rewrite stream_llm_cases.
      destruct (EnvConfig.is_vllm_available config); [apply stream_llm_vllm_url|].
      destruct (EnvConfig.is_ollama_available config); [|constructor].
      pose proof (stream_llm_ollama_url rt (of_opt (EnvConfig.ollama_model config))
                    prompt messages) as H.
      destruct (gen_calls _) as [|r [|r' l]]; try discriminate.
      inversion H. repeat constructor.
    + rewrite invoke_llm_cases.
      destruct (EnvConfig.is_vllm_available config);
        [cbn [requests_of]; apply invoke_llm_vllm_url|].
      destruct (EnvConfig.is_ollama_available config); repeat constructor.
  - intros config stream. split.
    + intros Hv Hb. destruct (payload_builds_ok _ _ Hb) as [msgs Hp].
      rewrite requests_of_invoke_llm, Hv, Hp. reflexivity.
    + intros Hv Ho. rewrite requests_of_invoke_llm, Hv, Ho. reflexivity.
  - intros c1 c2 [|] Hvm Hom Hv Ho.
    + unfold invoke_llm. rewrite !stream_llm_cases. now rewrite Hvm, Hom, Hv, Ho.
    + rewrite !invoke_llm_cases. now rewrite Hvm, Hom, Hv, Ho.
Qed.

(** C10 on concrete runs: the configuration names [http://vllm.example/v1],
    the module global names the local server, and the one request of each
    mode goes to the global; a configuration that selects Ollama sends its one
    request to the global Ollama endpoint; another url in the configuration
    changes nothing. *)
Lemma adapters_post_to_global_urls_witness :
  map url
    (requests_of
       (invoke_llm (runtime_replying (Ok (streaming hel_lo_done))) PNone user_messages
          (Some vllm_only) true))
  = [Some "http://localhost:8000/v1/chat/completions"]
  /\ map url
       (requests_of
          (invoke_llm (runtime_replying (Ok (streaming hel_lo_done)))
             (PList [PStr "Be brief."; PStr "Hi"]) PNone (Some vllm_only) false))
     = [Some "http://localhost:8000/v1/chat/completions"]
  /\ map url
       (requests_of
          (invoke_llm (runtime_replying (Ok (streaming hel_lo_done))) PNone user_messages
             (Some ollama_only) false))
     = [Some "http://localhost:11434/api/generate"]
  /\ invoke_llm (runtime_replying (Ok (streaming hel_lo_done))) PNone user_messages
       (Some vllm_only) false
     = invoke_llm (runtime_replying (Ok (streaming hel_lo_done))) PNone user_messages
         (Some (EnvConfig.mk (Some "http://elsewhere.example") (Some "fast-model") None None))
         false.
Proof.
  split; [|split; [|split]].
  - exact (proj1 (proj1 (proj2 (proj2 (adapters_post_to_global_urls
                                         (runtime_replying (Ok (streaming hel_lo_done)))
                                         PNone user_messages)))
                    vllm_only true)
             eq_refl (or_introl eq_refl)).
  - exact (proj1 (proj1 (proj2 (proj2 (adapters_post_to_global_urls
                                         (runtime_replying (Ok (streaming hel_lo_done)))
                                         (PList [PStr "Be brief."; PStr "Hi"]) PNone)))
                    vllm_only false)
             eq_refl
             (or_intror (conj eq_refl
                           (ex_intro _ (PStr "Be brief.")
                              (ex_intro _ (PStr "Hi") (conj eq_refl eq_refl)))))).
  - exact (proj2 (proj1 (proj2 (proj2 (adapters_post_to_global_urls
                                         (runtime_replying (Ok (streaming hel_lo_done)))
                                         PNone user_messages)))
                    ollama_only false)
             eq_refl eq_refl).
  - apply (proj2 (proj2 (proj2 (adapters_post_to_global_urls
                                  (runtime_replying (Ok (streaming hel_lo_done)))
                                  PNone user_messages))));
      reflexivity.
Defined.

(** ** Results of the non-streaming adapters *)

Lemma error_dict_is_error (e : exn) : exists s, error_dict e = PDict [("error", PStr s)].
Proof. unfold error_dict. destruct (is_TimeoutException e); eauto. Qed.

Lemma error_dict_not_answer (e : exn) (v : pyval) : error_dict e <> PDict [("answer", v)].
Proof. unfold error_dict. destruct (is_TimeoutException e); discriminate. Qed.

Lemma error_dict_error_of (e : exn) : error_dict e = error_of e.
Proof. unfold error_dict, error_of. now destruct (is_TimeoutException e). Qed.

(** C7 (amended).  Whatever the client does with the request and whatever the
    decoder does with the body, the [try] statements of [invoke_llm_vllm] and
    [invoke_llm_ollama] produce a dictionary with exactly one key, ["answer"]
    or ["error"], and raise nothing:
    - an exception of the client gives [{error: text}], the text being
      ["Request timed out"] for a time-out and [str(e)] otherwise;
    - a status other than 200 gives [{error: response.text}] (for Ollama, once
      the body has decoded);
    - a body that does not decode gives the error of the decoder's exception;
    - a 200 response whose body decodes gives [{answer: content}] when the
      content can be read off it, and the error of the failed read otherwise;
    - the key is ["answer"] only in that case of success.
    [invoke_llm_ollama] always returns the dictionary of its [try] statement;
    [invoke_llm_vllm] returns the dictionary of its [try] statement whenever
    its payload builds, which it does for a non-empty message list and for a
    prompt with two items.  Each issues exactly the one request. *)
Theorem invoke_returns_answer_xor_error (rt : Runtime) :
  (forall request,
      answer_xor_error (invoke_llm_vllm_try rt request)
      /\ (forall e, send rt request = Raise e ->
                    invoke_llm_vllm_try rt request = error_of e)
      /\ (forall response,
             send rt request = Ok response ->
             (status_code response <> 200 ->
              invoke_llm_vllm_try rt request = PDict [("error", PStr (text response))])
             /\ (status_code response = 200 ->
                 (forall e, json_loads rt (content response) = Raise e ->
                            invoke_llm_vllm_try rt request = error_of e)
                 /\ (forall data,
                        json_loads rt (content response) = Ok data ->
                        (forall v, first_choice_content data "message" = Ok v ->
                                   invoke_llm_vllm_try rt request = PDict [("answer", v)])
                        /\ (forall e, first_choice_content data "message" = Raise e ->
                                      invoke_llm_vllm_try rt request = error_of e))))
      /\ (forall v,
             invoke_llm_vllm_try rt request = PDict [("answer", v)] ->
             exists response data,
               send rt request = Ok response /\ status_code response = 200
               /\ json_loads rt (content response) = Ok data
               /\ first_choice_content data "message" = Ok v))
  /\ (forall request,
         answer_xor_error (invoke_llm_ollama_try rt request)
         /\ (forall e, send rt request = Raise e ->
                       invoke_llm_ollama_try rt request = error_of e)
         /\ (forall response,
                send rt request = Ok response ->
                (forall e, json_loads rt (content response) = Raise e ->
                           invoke_llm_ollama_try rt request = error_of e)
                /\ (forall data,
                       json_loads rt (content response) = Ok data ->
                       (status_code response <> 200 ->
                        invoke_llm_ollama_try rt request
                        = PDict [("error", PStr (text response))])
                       /\ (status_code response = 200 ->
                           (forall v, py_getitem_str data "response" = Ok v ->
                                      invoke_llm_ollama_try rt request
                                      = PDict [("answer", v)])
                           /\ (forall e, py_getitem_str data "response" = Raise e ->
                                         invoke_llm_ollama_try rt request = error_of e))))
         /\ (forall v,
                invoke_llm_ollama_try rt request = PDict [("answer", v)] ->
                exists response data,
                  send rt request = Ok response /\ status_code response = 200
                  /\ json_loads rt (content response) = Ok data
                  /\ py_getitem_str data "response" = Ok v))
  /\ (forall model prompt messages temperature top_p top_k seed,
         (payload_builds prompt messages ->
          exists payload,
            vllm_payload model prompt messages temperature top_p top_k seed false
            = Ok payload)
         /\ (forall payload,
                vllm_payload model prompt messages temperature top_p top_k seed false
                = Ok payload ->
                invoke_llm_vllm rt model prompt messages temperature top_p top_k seed
                = mkCall
                    (Ok (invoke_llm_vllm_try rt
                           (mkRequest "POST" (vllm_url rt) payload false)))
                    [mkRequest "POST" (vllm_url rt) payload false]))
  /\ (forall model prompt messages,
         exists request,
           invoke_llm_ollama rt model prompt messages
           = mkCall (Ok (invoke_llm_ollama_try rt request)) [request]).
Proof.
  split; [|split; [|split]].
  - intros request. unfold invoke_llm_vllm_try, catch_all.
    destruct (send rt request) as [response|e0] eqn:Hs; cbn [bind].
    + destruct (status_code response =? 200) eqn:H200.
      * apply Z.eqb_eq in H200.
        destruct (json_loads rt (content response)) as [data|ej] eqn:Hj; cbn [bind].
        -- destruct (first_choice_content data "message") as [w|ec] eqn:Hc; cbn [bind].
           ++ split; [left; eauto|]. split; [discriminate|]. split.
              ** intros r [= <-]. split; [congruence|]. intros _.
                 split; [congruence|]. intros d Hd.
                 assert (d = data) by congruence. subst d.
                 split; intros x Hx; congruence.
              ** intros v [= <-]. eauto 6.
           ++ rewrite error_dict_error_of.
              split; [right; unfold error_of; eauto|]. split; [discriminate|]. split.
              ** intros r [= <-]. split; [congruence|]. intros _.
                 split; [congruence|]. intros d Hd.
                 assert (d = data) by congruence. subst d.
                 split; intros x Hx; congruence.
              ** unfold error_of. discriminate.
        -- rewrite error_dict_error_of.
           split; [right; unfold error_of; eauto|]. split; [discriminate|]. split.
           ++ intros r [= <-]. split; [congruence|]. intros _.
              split; [congruence|]. intros d Hd. congruence.
           ++ unfold error_of. discriminate.
      * apply Z.eqb_neq in H200.
        split; [right; eauto|]. split; [discriminate|]. split.
        -- intros r [= <-]. split; [reflexivity|]. intros H. now elim H200.
        -- discriminate.
    + rewrite error_dict_error_of.
      split; [right; unfold error_of; eauto|]. split; [congruence|]. split.
      * discriminate.
      * unfold error_of. discriminate.
  - intros request. unfold invoke_llm_ollama_try, catch_all.
    destruct (send rt request) as [response|e0] eqn:Hs; cbn [bind].
    + destruct (json_loads rt (content response)) as [data|ej] eqn:Hj; cbn [bind].
      * destruct (status_code response =? 200) eqn:H200.
        -- apply Z.eqb_eq in H200.
           destruct (py_getitem_str data "response") as [w|ec] eqn:Hc; cbn [bind].
           ++ split; [left; eauto|]. split; [discriminate|]. split.
              ** intros r [= <-]. split; [congruence|]. intros d Hd.
                 assert (d = data) by congruence. subst d.
                 split; [congruence|]. intros _. split; intros x Hx; congruence.
              ** intros v [= <-]. eauto 6.
           ++ rewrite error_dict_error_of.
              split; [right; unfold error_of; eauto|]. split; [discriminate|]. split.
              ** intros r [= <-]. split; [congruence|]. intros d Hd.
                 assert (d = data) by congruence. subst d.
                 split; [congruence|]. intros _. split; intros x Hx; congruence.
              ** unfold error_of. discriminate.
        -- apply Z.eqb_neq in H200.
           split; [right; eauto|]. split; [discriminate|]. split.
           ++ intros r [= <-]. split; [congruence|]. intros d Hd.
              split; [reflexivity|]. intros H. now elim H200.
           ++ discriminate.
      * rewrite error_dict_error_of.
        split; [right; unfold error_of; eauto|]. split; [discriminate|]. split.
        -- intros r [= <-]. split; [congruence|]. intros d Hd. congruence.
        -- unfold error_of. discriminate.
    + rewrite error_dict_error_of.
      split; [right; unfold error_of; eauto|]. split; [congruence|]. split.
      * discriminate.
      * unfold error_of. discriminate.
  - intros model prompt messages temperature top_p top_k seed. split.
    + intros Hb. destruct (payload_builds_ok _ _ Hb) as [msgs Hp].
      eexists. apply Hp.
    + intros payload Hp. unfold invoke_llm_vllm. now rewrite Hp.
  - intros model prompt messages. unfold invoke_llm_ollama. eexists. reflexivity.
Qed.

(** The outcomes of C7 on concrete runs of [invoke_llm_vllm]: a 200 response
    with an answer, a 500 response, a time-out of the client, another
    exception of the client, and a 200 response whose body is not JSON, whose
    error text is the decoder's. *)
Example invoke_llm_vllm_outcomes :
  let run reply :=
    returned (invoke_llm_vllm (runtime_replying reply) (PStr "fast-model") PNone
                user_messages default_temperature default_top_p default_top_k default_seed) in
  run (Ok (replied 200 (dq "{'choices':[{'message':{'content':'Hello'}}]}")))
  = Ok (PDict [("answer", PStr "Hello")])
  /\ run (Ok (replied 500 "Internal Server Error"))
     = Ok (PDict [("error", PStr "Internal Server Error")])
  /\ run (Raise (mkExn TimeoutException "timed out"))
     = Ok (PDict [("error", PStr "Request timed out")])
  /\ run (Raise (mkExn (OtherException "ConnectError") "All connection attempts failed"))
     = Ok (PDict [("error", PStr "All connection attempts failed")])
  /\ exists decoding_error,
       run (Ok (replied 200 "<html>")) = Ok (PDict [("error", PStr decoding_error)]).
Proof.
  cbv zeta. repeat (split; [vm_compute; reflexivity|]).
  eexists. vm_compute. reflexivity.
Qed.

(** C7 (amended) on concrete runs: with a prompt pair and no message list,
    [invoke_llm_vllm] returns the answer of a 200 response; [invoke_llm_ollama]
    returns the text of a 500 response with a JSON body as an error, and the
    fixed text for a time-out. *)
Lemma invoke_returns_answer_xor_error_witness :
  returned (invoke_llm_vllm
              (runtime_replying
                 (Ok (replied 200 (dq "{'choices':[{'message':{'content':'Hello'}}]}"))))
              (PStr "fast-model") (PList [PStr "Be brief."; PStr "Hi"]) PNone
              default_temperature default_top_p default_top_k default_seed)
  = Ok (PDict [("answer", PStr "Hello")])
  /\ invoke_llm_ollama_try (runtime_replying (Ok (replied 500 (dq "{'error':'no model'}"))))
       (mkRequest "POST" None PNone false)
     = PDict [("error", PStr (dq "{'error':'no model'}"))]
  /\ invoke_llm_ollama_try
       (runtime_replying (Raise (mkExn TimeoutException "read timed out")))
       (mkRequest "POST" None PNone false)
     = PDict [("error", PStr "Request timed out")].
Proof.
  split; [|split].
  - pose proof (invoke_returns_answer_xor_error
                  (runtime_replying
                     (Ok (replied 200 (dq "{'choices':[{'message':{'content':'Hello'}}]}")))))
      as (Hv & _ & Hf & _).
    rewrite (proj2 (Hf (PStr "fast-model") (PList [PStr "Be brief."; PStr "Hi"]) PNone
                      default_temperature default_top_p default_top_k default_seed)
               _ eq_refl).
    cbn [returned]. apply (f_equal Ok).
    refine (proj1 (proj2 (proj2 (proj1 (proj2 (proj2 (Hv _))) _ eq_refl) eq_refl) _ eq_refl)
              _ eq_refl).
  - exact (proj1 (proj2 (proj1 (proj2 (proj2 (proj1 (proj2
             (invoke_returns_answer_xor_error
                (runtime_replying (Ok (replied 500 (dq "{'error':'no model'}"))))))
             (mkRequest "POST" None PNone false)))) _ eq_refl) _ eq_refl)
             ltac:(discriminate)).
  - exact (proj1 (proj2 (proj1 (proj2
             (invoke_returns_answer_xor_error
                (runtime_replying (Raise (mkExn TimeoutException "read timed out")))))
             (mkRequest "POST" None PNone false))) _ eq_refl).
Defined.

(** C7 as stated fails: called with its default arguments, no prompt and no
    message list, [invoke_llm_vllm] returns no dictionary.  The payload is
    built before the [try] statement, [prompt[0]] raises a [TypeError] on
    [None], and the exception reaches the caller, also through the
    dispatcher; no request is issued. *)
Lemma invoke_llm_vllm_raises_on_default_arguments :
  let rt := runtime_replying
              (Ok (replied 200 (dq "{'choices':[{'message':{'content':'Hello'}}]}"))) in
  let c := invoke_llm_vllm rt (PStr "fast-model") PNone PNone
             default_temperature default_top_p default_top_k default_seed in
  returned c = Raise (mkExn TypeError "'NoneType' object is not subscriptable")
  /\ calls c = []
  /\ ~ (exists d, returned c = Ok d)
  /\ invoke_llm rt PNone PNone (Some vllm_only) false = Awaited c.
Proof.
  cbv zeta. split; [reflexivity|]. split; [reflexivity|]. split; [|reflexivity].
  intros [d H]. vm_compute in H. discriminate H.
Qed.

(** ** The chat-model adapter *)

Lemma concat_cons (d : string) (ds : list string) :
  String.concat EmptyString (d :: ds) = (d ++ String.concat EmptyString ds)%string.
Proof.
  destruct ds as [|d' ds]; simpl; [|reflexivity].
  induction d as [|c d IH]; simpl; [reflexivity | now rewrite <- IH].
Qed.

Lemma append_assoc (a b c : string) : ((a ++ b) ++ c = a ++ (b ++ c))%string.
Proof. induction a as [|x a IH]; simpl; [reflexivity | now rewrite IH]. Qed.

(** The loop of [_astream] over text chunks of a stream that ended. *)
Lemma astream_loop_text (acc : string) (deltas : list string) :
  SpandaLLM._astream_loop acc (map PStr deltas) None
  = (map AIMessage.mk deltas
       ++ [AIMessage.mk (acc ++ String.concat EmptyString deltas)%string],
     None).
Proof.
  revert acc. induction deltas as [|d ds IH]; intros acc.
  - simpl. f_equal. f_equal. f_equal.
    induction acc as [|c acc IHa]; simpl; [reflexivity | now rewrite <- IHa].
  - cbn [map SpandaLLM._astream_loop]. rewrite IH. rewrite concat_cons.
    now rewrite append_assoc.
Qed.

(** C8. Whenever the underlying stream yields the texts [deltas] and ends,
    [SpandaLLM._astream] emits one message per delta, in the same order and
    with the same content, and then exactly one final message whose content
    is the concatenation of all the deltas from left to right; it issues the
    requests of the underlying stream and no other. *)
Theorem astream_accumulates (rt : Runtime) (self : SpandaLLM.t) (messages : pyval)
    (deltas : list string) :
  yielded (stream_llm rt PNone messages (SpandaLLM.config self)) = map PStr deltas ->
  raised (stream_llm rt PNone messages (SpandaLLM.config self)) = None ->
  SpandaLLM._astream rt self messages
  = mkGen (map AIMessage.mk deltas ++ [AIMessage.mk (String.concat EmptyString deltas)])
      None
      (gen_calls (stream_llm rt PNone messages (SpandaLLM.config self))).
Proof.
  intros Hy Hr. unfold SpandaLLM._astream. rewrite Hy, Hr.
  now rewrite astream_loop_text.
Qed.

(** C8 on the deltas ["Hel"] and ["lo"], streamed by the vLLM backend: the
    messages are ["Hel"], ["lo"] and then ["Hello"]. *)
Lemma astream_accumulates_witness :
  yielded (SpandaLLM._astream (runtime_replying (Ok (streaming hel_lo_done)))
             (SpandaLLM.mk (Some vllm_only) false) user_messages)
  = [AIMessage.mk "Hel"; AIMessage.mk "lo"; AIMessage.mk "Hello"]
  /\ raised (SpandaLLM._astream (runtime_replying (Ok (streaming hel_lo_done)))
               (SpandaLLM.mk (Some vllm_only) false) user_messages)
     = None.
Proof.
  rewrite (astream_accumulates (runtime_replying (Ok (streaming hel_lo_done)))
             (SpandaLLM.mk (Some vllm_only) false) user_messages ["Hel"; "lo"]
             eq_refl eq_refl).
  split; reflexivity.
Defined.

(* ================================================================== *)
(** * Further properties of the module *)

(** ** The resolver and the environment *)

(** X1. The resolver never returns half a backend: either both the model and
    the url are non-empty texts, and one of the two availability tests holds,
    or it returns [(None, None)] and both tests fail.  This is what lets the
    dispatcher test [not model or not url]. *)
Theorem get_model_and_url_all_or_nothing (c : EnvConfig.t) :
  (non_empty (fst (EnvConfig.get_model_and_url c))
   /\ non_empty (snd (EnvConfig.get_model_and_url c))
   /\ EnvConfig.is_vllm_available c || EnvConfig.is_ollama_available c = true)
  \/ (EnvConfig.get_model_and_url c = (None, None)
      /\ EnvConfig.is_vllm_available c = false
      /\ EnvConfig.is_ollama_available c = false).
Proof.
  unfold EnvConfig.get_model_and_url.
  destruct (EnvConfig.is_vllm_available c) eqn:Hv.
  - left. apply is_vllm_available_iff in Hv as [Hu Hm]. simpl. auto.
  - destruct (EnvConfig.is_ollama_available c) eqn:Ho.
    + left. apply is_ollama_available_iff in Ho as [Hu Hm]. simpl. auto.
    + right. auto.
Qed.

Lemma truthy_unblank (o : option string) :
  truthy (of_opt (unblank o)) = truthy (of_opt o).
Proof. destruct o as [[|a s]|]; reflexivity. Qed.

Lemma unblank_truthy (o : option string) :
  truthy (of_opt o) = true -> unblank o = o.
Proof. destruct o as [[|a s]|]; simpl; (discriminate || reflexivity). Qed.

Lemma available_unblank (a b : option string) :
  truthy (py_and (of_opt (unblank a)) (of_opt (unblank b)))
  = truthy (py_and (of_opt a) (of_opt b)).
Proof.
  unfold py_and. rewrite truthy_unblank.
  destruct (truthy (of_opt a)); apply truthy_unblank.
Qed.

(** X2. A variable set to the empty text counts as unset: replacing every
    empty text of a configuration by [None] changes neither the availability
    tests, nor what the resolver returns, nor what the dispatcher does. *)
Theorem blank_fields_count_as_unset (rt : Runtime) (prompt messages : pyval)
    (c : EnvConfig.t) (stream : bool) :
  EnvConfig.is_vllm_available (unblank_config c) = EnvConfig.is_vllm_available c
  /\ EnvConfig.is_ollama_available (unblank_config c) = EnvConfig.is_ollama_available c
  /\ EnvConfig.get_model_and_url (unblank_config c) = EnvConfig.get_model_and_url c
  /\ invoke_llm rt prompt messages (Some (unblank_config c)) stream
     = invoke_llm rt prompt messages (Some c) stream.
Proof.
  assert (Hv : EnvConfig.is_vllm_available (unblank_config c)
               = EnvConfig.is_vllm_available c) by apply available_unblank.
  assert (Ho : EnvConfig.is_ollama_available (unblank_config c)
               = EnvConfig.is_ollama_available c) by apply available_unblank.
  assert (Hvm : EnvConfig.is_vllm_available c = true ->
                EnvConfig.vllm_model (unblank_config c) = EnvConfig.vllm_model c
                /\ EnvConfig.vllm_url (unblank_config c) = EnvConfig.vllm_url c).
  { intros H. apply is_vllm_available_iff in H as [Hu Hm].
    apply truthy_of_opt_iff in Hu, Hm. simpl. now rewrite !unblank_truthy. }
  assert (Hom : EnvConfig.is_ollama_available c = true ->
                EnvConfig.ollama_model (unblank_config c) = EnvConfig.ollama_model c
                /\ EnvConfig.ollama_url (unblank_config c) = EnvConfig.ollama_url c).
  { intros H. apply is_ollama_available_iff in H as [Hu Hm].
    apply truthy_of_opt_iff in Hu, Hm. simpl. now rewrite !unblank_truthy. }
  split; [exact Hv|]. split; [exact Ho|]. split.
  - unfold EnvConfig.get_model_and_url. rewrite Hv, Ho.
    destruct (EnvConfig.is_vllm_available c);
      [destruct Hvm as [-> ->]; reflexivity|].
    destruct (EnvConfig.is_ollama_available c);
      [destruct Hom as [-> ->]; reflexivity | reflexivity].
  - destruct stream.
    + unfold invoke_llm. rewrite !stream_llm_cases, Hv, Ho.
      destruct (EnvConfig.is_vllm_available c);
        [destruct Hvm as [-> _]; reflexivity|].
      destruct (EnvConfig.is_ollama_available c);
        [destruct Hom as [-> _]; reflexivity | reflexivity].
    + rewrite !invoke_llm_cases, Hv, Ho.
      destruct (EnvConfig.is_vllm_available c);
        [destruct Hvm as [-> _]; reflexivity|].
      destruct (EnvConfig.is_ollama_available c);
        [destruct Hom as [-> _]; reflexivity | reflexivity].
Qed.

(** ** The requests of the dispatcher *)

(** X3. One call of the dispatcher issues at most one request, streaming or
    not, with or without a configuration: nothing is retried and no second
    backend is tried after the first. *)
Theorem dispatcher_issues_at_most_one_request (rt : Runtime) (prompt messages : pyval)
    (config : option EnvConfig.t) (stream : bool) :
  (List.length (requests_of (invoke_llm rt prompt messages config stream)) <= 1)%nat.
Proof.
  destruct config as [c|]; [|rewrite invoke_llm_none];
    rewrite requests_of_invoke_llm;
    repeat match goal with
           | |- context [if ?b then _ else _] => destruct b
           | |- context [match ?r with Ok _ => _ | Raise _ => _ end] => destruct r
           end; simpl; lia.
Qed.

(** X4. Through the dispatcher the sampling parameters of a vLLM request are
    fixed: whenever the configuration selects vLLM, every request carries the
    configured model, temperature 0.0, top_p 0.1, top_k 1 and seed 42, and
    goes out as a POST whose [stream] field says how it was sent. *)
Theorem dispatcher_vllm_parameters_are_fixed (rt : Runtime) (prompt messages : pyval)
    (c : EnvConfig.t) (stream : bool) :
  EnvConfig.is_vllm_available c = true ->
  Forall
    (fun r =>
       payload_field "model" r = Ok (of_opt (EnvConfig.vllm_model c))
       /\ payload_field "temperature" r = Ok (PFloat (FDec false 0 (-1)))
       /\ payload_field "top_p" r = Ok (PFloat (FDec false 1 (-1)))
       /\ payload_field "top_k" r = Ok (PInt 1)
       /\ payload_field "seed" r = Ok (PInt 42)
       /\ payload_field "stream" r = Ok (PBool stream))
    (requests_of (invoke_llm rt prompt messages (Some c) stream)).
Proof.
  intros Hv. rewrite requests_of_invoke_llm, Hv.
  destruct (vllm_payload _ _ _ _ _ _ _ _) as [payload|e] eqn:Hp; [|constructor].
  apply vllm_payload_fields in Hp as (msgs & ->).
  repeat constructor.
Qed.

Lemma dispatcher_vllm_parameters_are_fixed_witness :
  Forall
    (fun r =>
       payload_field "model" r = Ok (PStr "fast-model")
       /\ payload_field "temperature" r = Ok (PFloat (FDec false 0 (-1)))
       /\ payload_field "top_p" r = Ok (PFloat (FDec false 1 (-1)))
       /\ payload_field "top_k" r = Ok (PInt 1)
       /\ payload_field "seed" r = Ok (PInt 42)
       /\ payload_field "stream" r = Ok (PBool true))
    (requests_of
       (invoke_llm (runtime_replying (Ok (streaming hel_lo_done))) PNone user_messages
          (Some vllm_only) true)).
Proof.
  exact (dispatcher_vllm_parameters_are_fixed
           (runtime_replying (Ok (streaming hel_lo_done))) PNone user_messages
           vllm_only true eq_refl).
Defined.

(** X5. When the configuration selects Ollama, the model named in the request
    depends on the mode: without streaming it is the environment variable
    [OLLAMA_MODEL] as it is at the time of the call, whatever the
    configuration says; with streaming it is the model of the configuration. *)
Theorem dispatcher_ollama_model_depends_on_mode (rt : Runtime) (prompt messages : pyval)
    (c : EnvConfig.t) :
  EnvConfig.is_vllm_available c = false ->
  EnvConfig.is_ollama_available c = true ->
  map (payload_field "model")
    (requests_of (invoke_llm rt prompt messages (Some c) false))
  = [Ok (of_opt (getenv rt "OLLAMA_MODEL"))]
  /\ map (payload_field "model")
       (requests_of (invoke_llm rt prompt messages (Some c) true))
     = [Ok (of_opt (EnvConfig.ollama_model c))].
Proof.
  intros Hv Ho. rewrite !requests_of_invoke_llm, Hv, Ho. split; reflexivity.
Qed.

(** X5 on a run: the configuration names [local-model], the environment has
    no [OLLAMA_MODEL]; the request without streaming names no model. *)
Lemma dispatcher_ollama_model_depends_on_mode_witness :
  map (payload_field "model")
    (requests_of
       (invoke_llm (runtime_replying (Ok (replied 200 EmptyString))) PNone user_messages
          (Some ollama_only) false))
  = [Ok PNone]
  /\ map (payload_field "model")
       (requests_of
          (invoke_llm (runtime_replying (Ok (replied 200 EmptyString))) PNone user_messages
             (Some ollama_only) true))
     = [Ok (PStr "local-model")].
Proof.
  exact (dispatcher_ollama_model_depends_on_mode
           (runtime_replying (Ok (replied 200 EmptyString))) PNone user_messages
           ollama_only eq_refl eq_refl).
Defined.

(** X6. Every request of the dispatcher is a POST, is sent by
    [client.stream] exactly when streaming was asked for, and says so in the
    [stream] field of its payload. *)
Theorem dispatcher_requests_match_the_mode (rt : Runtime) (prompt messages : pyval)
    (config : option EnvConfig.t) (stream : bool) :
  Forall
    (fun r =>
       method r = "POST" /\ via_stream r = stream
       /\ payload_field "stream" r = Ok (PBool stream))
    (requests_of (invoke_llm rt prompt messages config stream)).
Proof.
  destruct config as [c|]; [|rewrite invoke_llm_none];
    rewrite requests_of_invoke_llm;
    (destruct (EnvConfig.is_vllm_available _);
     [ destruct (vllm_payload _ _ _ _ _ _ _ _) as [payload|e] eqn:Hp; [|constructor];
       apply vllm_payload_fields in Hp as (msgs & ->); repeat constructor
     | destruct (EnvConfig.is_ollama_available _); [|constructor];
       destruct stream; repeat constructor ]).
Qed.

(** ** The payload of the vLLM adapter *)

(** X7. With a non-empty message list the vLLM operations ignore the prompt:
    two calls that differ only in the prompt are the same call, request and
    result, and the request carries the messages as they were given. *)
Theorem vllm_prompt_is_ignored_with_messages (rt : Runtime)
    (model prompt1 prompt2 messages temperature top_p top_k seed : pyval) :
  truthy messages = true ->
  invoke_llm_vllm rt model prompt1 messages temperature top_p top_k seed
  = invoke_llm_vllm rt model prompt2 messages temperature top_p top_k seed
  /\ stream_llm_vllm rt model prompt1 messages temperature top_p top_k seed
     = stream_llm_vllm rt model prompt2 messages temperature top_p top_k seed
  /\ map (payload_field "messages")
       (calls (invoke_llm_vllm rt model prompt1 messages temperature top_p top_k seed))
     = [Ok messages]
  /\ map (payload_field "messages")
       (gen_calls (stream_llm_vllm rt model prompt1 messages temperature top_p top_k seed))
     = [Ok messages].
Proof.
  intros Hm. split; [|split; [|split]].
  - unfold invoke_llm_vllm. now rewrite !vllm_payload_with_messages.
  - unfold stream_llm_vllm. now rewrite !vllm_payload_with_messages.
  - rewrite invoke_llm_vllm_calls, vllm_payload_with_messages by assumption. reflexivity.
  - rewrite stream_llm_vllm_calls, vllm_payload_with_messages by assumption. reflexivity.
Qed.

Lemma vllm_prompt_is_ignored_with_messages_witness :
  invoke_llm_vllm (runtime_replying (Ok (replied 200 EmptyString))) (PStr "fast-model")
    PNone user_messages default_temperature default_top_p default_top_k default_seed
  = invoke_llm_vllm (runtime_replying (Ok (replied 200 EmptyString))) (PStr "fast-model")
      (PList [PStr "Be brief."; PStr "Hi"]) user_messages
      default_temperature default_top_p default_top_k default_seed.
Proof.
  exact (proj1 (vllm_prompt_is_ignored_with_messages
                  (runtime_replying (Ok (replied 200 EmptyString))) (PStr "fast-model")
                  PNone (PList [PStr "Be brief."; PStr "Hi"]) user_messages
                  default_temperature default_top_p default_top_k default_seed eq_refl)).
Defined.

(** X8. Without a message list ([None] or empty), the vLLM operations send
    two messages, [prompt[0]] with the role [system] and [prompt[1]] with the
    role [user], whatever else the prompt holds. *)
Theorem vllm_prompt_becomes_two_messages (rt : Runtime)
    (model prompt messages temperature top_p top_k seed system user : pyval) :
  truthy messages = false ->
  py_getitem_int prompt 0 = Ok system ->
  py_getitem_int prompt 1 = Ok user ->
  map (payload_field "messages")
    (calls (invoke_llm_vllm rt model prompt messages temperature top_p top_k seed))
  = [Ok (system_user system user)]
  /\ map (payload_field "messages")
       (gen_calls (stream_llm_vllm rt model prompt messages temperature top_p top_k seed))
     = [Ok (system_user system user)].
Proof.
  intros Hm H0 H1.
  assert (Hp : forall stream,
             vllm_payload model prompt messages temperature top_p top_k seed stream
             = Ok (PDict [ ("model", model); ("messages", system_user system user);
                           ("temperature", temperature); ("top_p", top_p);
                           ("top_k", top_k); ("seed", seed); ("stream", PBool stream) ])).
  { intros stream. unfold vllm_payload. now rewrite Hm, H0, H1. }
  split.
  - rewrite invoke_llm_vllm_calls, Hp. reflexivity.
  - rewrite stream_llm_vllm_calls, Hp. reflexivity.
Qed.

(** X8 on a pair and on a text: a prompt that is a text, as its annotation
    says, contributes its first two characters. *)
Lemma vllm_prompt_becomes_two_messages_witness :
  map (payload_field "messages")
    (calls (invoke_llm_vllm (runtime_replying (Ok (replied 200 EmptyString)))
              (PStr "fast-model") (PList [PStr "Be brief."; PStr "Hi"; PStr "unused"]) PNone
              default_temperature default_top_p default_top_k default_seed))
  = [Ok (system_user (PStr "Be brief.") (PStr "Hi"))]
  /\ map (payload_field "messages")
       (calls (invoke_llm_vllm (runtime_replying (Ok (replied 200 EmptyString)))
                 (PStr "fast-model") (PStr "Hello") (PList [])
                 default_temperature default_top_p default_top_k default_seed))
     = [Ok (system_user (PStr "H") (PStr "e"))].
Proof.
  split.
  - exact (proj1 (vllm_prompt_becomes_two_messages
                    (runtime_replying (Ok (replied 200 EmptyString)))
                    (PStr "fast-model") (PList [PStr "Be brief."; PStr "Hi"; PStr "unused"])
                    PNone default_temperature default_top_p default_top_k default_seed
                    (PStr "Be brief.") (PStr "Hi") eq_refl eq_refl eq_refl)).
  - exact (proj1 (vllm_prompt_becomes_two_messages
                    (runtime_replying (Ok (replied 200 EmptyString)))
                    (PStr "fast-model") (PStr "Hello") (PList [])
                    default_temperature default_top_p default_top_k default_seed
                    (PStr "H") (PStr "e") eq_refl eq_refl eq_refl)).
Defined.

(** X9. Without a message list and without a prompt that has two items, the
    vLLM operations raise the exception of the failing subscript instead of
    returning an error dictionary, and issue no request; so does the
    dispatcher when the configuration selects vLLM. *)
Theorem vllm_payload_failure_is_raised (rt : Runtime)
    (model prompt messages temperature top_p top_k seed : pyval) (e : exn) :
  truthy messages = false ->
  (system <- py_getitem_int prompt 0 ;; py_getitem_int prompt 1) = Raise e ->
  invoke_llm_vllm rt model prompt messages temperature top_p top_k seed
  = mkCall (Raise e) []
  /\ stream_llm_vllm rt model prompt messages temperature top_p top_k seed
     = mkGen [] (Some e) []
  /\ (forall c, EnvConfig.is_vllm_available c = true ->
                invoke_llm rt prompt messages (Some c) false
                = Awaited (mkCall (Raise e) [])
                /\ stream_llm rt prompt messages (Some c) = mkGen [] (Some e) []).
Proof.
  intros Hm He.
  assert (Hp : forall m t p k s stream,
             vllm_payload m prompt messages t p k s stream = Raise e).
  { intros m t p k s stream. unfold vllm_payload. rewrite Hm.
    destruct (py_getitem_int prompt 0) as [system|e0]; cbn [bind] in *.
    - destruct (py_getitem_int prompt 1) as [user|e1]; cbn [bind] in *;
        [discriminate | exact He].
    - exact He. }
  split; [|split].
  - unfold invoke_llm_vllm. now rewrite Hp.
  - unfold stream_llm_vllm. now rewrite Hp.
  - intros c Hv. rewrite invoke_llm_cases, stream_llm_cases, Hv.
    unfold invoke_llm_vllm, stream_llm_vllm. now rewrite !Hp.
Qed.

(** X9 with the default arguments: no prompt, no messages. *)
Lemma vllm_payload_failure_is_raised_witness :
  invoke_llm (runtime_replying (Ok (replied 200 EmptyString))) PNone PNone
    (Some vllm_only) false
  = Awaited (mkCall (Raise (mkExn TypeError "'NoneType' object is not subscriptable")) []).
Proof.
  exact (proj1 (proj2 (proj2 (vllm_payload_failure_is_raised
                                (runtime_replying (Ok (replied 200 EmptyString)))
                                PNone PNone PNone PNone PNone PNone PNone
                                (mkExn TypeError "'NoneType' object is not subscriptable")
                                eq_refl eq_refl))
                 vllm_only eq_refl)).
Defined.

(** ** What the non-streaming adapters read off a response *)



(** X11. What [invoke_llm_ollama] makes of a 200 response whose body decodes
    to an object: the value of its [response] field is the answer; without
    that field the result is an error whose text is the quoted key. *)
Theorem invoke_llm_ollama_reads_response (rt : Runtime) (request : Request)
    (response : Response) (d : list (string * pyval)) :
  send rt request = Ok response ->
  status_code response = 200 ->
  json_loads rt (content response) = Ok (PDict d) ->
  invoke_llm_ollama_try rt request
  = match dict_lookup "response" d with
    | Some v => PDict [("answer", v)]
    | None => PDict [("error", PStr "'response'")]
    end.
Proof.
  intros Hs H200 Hj. unfold invoke_llm_ollama_try.
  rewrite Hs. cbn [bind]. rewrite Hj. cbn [bind]. rewrite H200.
  cbn [Z.eqb Pos.eqb py_getitem_str].
  now destruct (dict_lookup "response" d).
Qed.

Lemma invoke_llm_ollama_reads_response_witness :
  invoke_llm_ollama_try (runtime_replying (Ok (replied 200 (dq "{'done':true}"))))
    (mkRequest "POST" None PNone false)
  = PDict [("error", PStr "'response'")].
Proof.
  exact (invoke_llm_ollama_reads_response
           (runtime_replying (Ok (replied 200 (dq "{'done':true}"))))
           (mkRequest "POST" None PNone false)
           (replied 200 (dq "{'done':true}"))
           [("done", PBool true)] eq_refl eq_refl eq_refl).
Defined.

(** X12. A response with a status other than 200 is an error for both
    adapters, but not the same one: [invoke_llm_vllm] reports the text of the
    response without decoding it; [invoke_llm_ollama] decodes the body first,
    so it reports the text of the response only when the body is JSON, and
    the decoding error otherwise. *)
Theorem invoke_non_200_is_an_error (rt : Runtime) (request : Request)
    (response : Response) :
  send rt request = Ok response ->
  status_code response <> 200 ->
  invoke_llm_vllm_try rt request = PDict [("error", PStr (text response))]
  /\ invoke_llm_ollama_try rt request
     = match json_loads rt (content response) with
       | Ok _ => PDict [("error", PStr (text response))]
       | Raise e => error_dict e
       end.
Proof.
  intros Hs H200. apply Z.eqb_neq in H200.
  unfold invoke_llm_vllm_try, invoke_llm_ollama_try.
  rewrite Hs. cbn [bind]. rewrite H200. split; [reflexivity|].
  now destruct (json_loads rt (content response)).
Qed.

(** X12 on a 503 response: with a body that is not JSON, vLLM reports the
    text of the response and Ollama the exception of the decoder; with a JSON
    body both report the text of the response. *)
Lemma invoke_non_200_is_an_error_witness :
  (invoke_llm_vllm_try (runtime_replying (Ok (replied 503 "Service Unavailable")))
     (mkRequest "POST" None PNone false)
   = PDict [("error", PStr "Service Unavailable")]
   /\ exists e,
        json_loads (runtime_replying (Ok (replied 503 "Service Unavailable")))
          "Service Unavailable" = Raise e
        /\ invoke_llm_ollama_try (runtime_replying (Ok (replied 503 "Service Unavailable")))
             (mkRequest "POST" None PNone false)
           = error_dict e)
  /\ (invoke_llm_vllm_try (runtime_replying (Ok (replied 503 (dq "{'error':'busy'}"))))
        (mkRequest "POST" None PNone false)
      = PDict [("error", PStr (dq "{'error':'busy'}"))]
      /\ invoke_llm_ollama_try (runtime_replying (Ok (replied 503 (dq "{'error':'busy'}"))))
           (mkRequest "POST" None PNone false)
         = PDict [("error", PStr (dq "{'error':'busy'}"))]).
Proof.
  split.
  - pose proof (invoke_non_200_is_an_error
                  (runtime_replying (Ok (replied 503 "Service Unavailable")))
                  (mkRequest "POST" None PNone false)
                  (replied 503 "Service Unavailable") eq_refl ltac:(discriminate))
      as [Hv Ho].
    split; [exact Hv|].
    destruct (json_loads (runtime_replying (Ok (replied 503 "Service Unavailable")))
                (content (replied 503 "Service Unavailable"))) as [data|e] eqn:Hj.
    + vm_compute in Hj. discriminate Hj.
    + exists e. split; [exact Hj | exact Ho].
  - exact (invoke_non_200_is_an_error
             (runtime_replying (Ok (replied 503 (dq "{'error':'busy'}"))))
             (mkRequest "POST" None PNone false)
             (replied 503 (dq "{'error':'busy'}")) eq_refl ltac:(discriminate)).
Defined.



(** ** More on the streams *)

(** X14. A status other than 200 silences [stream_llm_vllm]: it reads no
    line, yields nothing and ends without an exception, so the caller cannot
    tell the failure from an empty answer.  [stream_llm_ollama] does not look
    at the status: it yields and ends the same for any status of the same
    response. *)
Theorem stream_status_handling (rt : Runtime) (response : Response)
    (model prompt messages temperature top_p top_k seed : pyval) :
  (truthy messages = true ->
   status_code response <> 200 ->
   yielded (stream_llm_vllm (answering rt response) model prompt messages
              temperature top_p top_k seed) = []
   /\ raised (stream_llm_vllm (answering rt response) model prompt messages
                temperature top_p top_k seed) = None)
  /\ (forall status,
         yielded (stream_llm_ollama (answering rt (with_status status response))
                    model prompt messages)
         = yielded (stream_llm_ollama (answering rt response) model prompt messages)
         /\ raised (stream_llm_ollama (answering rt (with_status status response))
                      model prompt messages)
            = raised (stream_llm_ollama (answering rt response) model prompt messages)).
Proof.
  split.
  - intros Hm H200. apply Z.eqb_neq in H200.
    unfold stream_llm_vllm. rewrite vllm_payload_with_messages by assumption.
    cbn [answering send]. rewrite H200. split; reflexivity.
  - intros status. unfold stream_llm_ollama.
    cbn [answering send with_status aiter_lines aiter_broken].
    change (stream_llm_ollama_body
              (mkRuntime (ollama_url rt) (vllm_url rt) (getenv rt) (json_loads rt)
                 (fun _ => Ok (mkResponse status (content response) (text response)
                                 (aiter_lines response) (aiter_broken response)))))
      with (stream_llm_ollama_body
              (mkRuntime (ollama_url rt) (vllm_url rt) (getenv rt) (json_loads rt)
                 (fun _ => Ok response))).
    destruct (async_for _ _ _). split; reflexivity.
Qed.

Lemma stream_status_handling_witness :
  yielded (stream_llm_vllm
             (answering (runtime_replying (Raise (mkExn TypeError EmptyString)))
                (with_status 500 (streaming hel_lo_done)))
             (PStr "fast-model") PNone user_messages
             default_temperature default_top_p default_top_k default_seed)
  = []
  /\ raised (stream_llm_vllm
               (answering (runtime_replying (Raise (mkExn TypeError EmptyString)))
                  (with_status 500 (streaming hel_lo_done)))
               (PStr "fast-model") PNone user_messages
               default_temperature default_top_p default_top_k default_seed)
     = None.
Proof.
  exact (proj1 (stream_status_handling
                  (runtime_replying (Raise (mkExn TypeError EmptyString)))
                  (with_status 500 (streaming hel_lo_done))
                  (PStr "fast-model") PNone user_messages
                  default_temperature default_top_p default_top_k default_seed)
           eq_refl ltac:(discriminate)).
Defined.

(** X15. Empty lines leave no trace in either stream: the loop run on the
    lines without the empty ones yields the same items and ends the same
    way. *)
Theorem empty_lines_are_ignored (rt : Runtime) (lines : list string)
    (broken : option exn) :
  async_for (stream_llm_vllm_body rt)
    (filter (fun line => negb (String.eqb line EmptyString)) lines) broken
  = async_for (stream_llm_vllm_body rt) lines broken
  /\ async_for (stream_llm_ollama_body rt)
       (filter (fun line => negb (String.eqb line EmptyString)) lines) broken
     = async_for (stream_llm_ollama_body rt) lines broken.
Proof.
  split; apply async_for_filter; intros line Hl;
    apply String.eqb_eq in Hl; subst; reflexivity.
Qed.

Section AsyncForItems.

Variable body : string -> step.

(** A property of every item a body yields holds of every item of the
    loop. *)
Lemma async_for_items (P : pyval -> Prop) (lines : list string) (broken : option exn) :
  (forall line item, body line = Yield item -> P item) ->
  Forall P (fst (async_for body lines broken)).
Proof.
  intros HP. induction lines as [|l lines IH]; simpl; [constructor|].
  destruct (body l) as [|item| |e] eqn:Hl; try constructor.
  - exact IH.
  - destruct (async_for body lines broken) as [more e']. simpl in *.
    constructor; [now apply (HP l) | exact IH].
Qed.

(** What the loop yields on the first lines of a response is the beginning of
    what it yields on the whole response. *)
Lemma async_for_prefix (l1 l2 : list string) (b1 b2 : option exn) :
  is_prefix (fst (async_for body l1 b1)) (fst (async_for body (l1 ++ l2) b2)).
Proof.
  unfold is_prefix. induction l1 as [|l l1 IH]; simpl.
  - now exists (fst (async_for body l2 b2)).
  - destruct (body l) as [|item| |e]; try (now exists []).
    + exact IH.
    + destruct IH as [rest IH].
      destruct (async_for body l1 b1) as [m1 e1].
      destruct (async_for body (l1 ++ l2) b2) as [m2 e2].
      simpl in *. exists rest. now rewrite IH.
Qed.

(** A loop whose body yields on no empty line yields at most one item per
    non-empty line. *)
Lemma async_for_length (lines : list string) (broken : option exn) :
  body EmptyString = Continue ->
  (List.length (fst (async_for body lines broken))
   <= List.length (filter (fun line => negb (String.eqb line EmptyString)) lines))%nat.
Proof.
  intros Hempty. induction lines as [|l lines IH]; simpl; [lia|].
  destruct (String.eqb_spec l EmptyString) as [->|Hne]; simpl.
  - now rewrite Hempty.
  - destruct (body l) as [|item| |e]; simpl; try lia.
    destruct (async_for body lines broken) as [more e']. simpl in *. lia.
Qed.

End AsyncForItems.

(** X16. [stream_llm_vllm] never yields an empty item: every item it yields
    is true in the sense of [if content:], so a chunk whose content is the
    empty text, [null], [0] or an empty list is dropped. *)
Theorem stream_llm_vllm_yields_no_empty_item (rt : Runtime)
    (model prompt messages temperature top_p top_k seed : pyval) :
  Forall (fun item => truthy item = true)
    (yielded (stream_llm_vllm rt model prompt messages temperature top_p top_k seed)).
Proof.
  unfold stream_llm_vllm.
  destruct (vllm_payload _ _ _ _ _ _ _ _); [|constructor].
  destruct (send rt _) as [response|e]; [|constructor].
  destruct (status_code response =? 200); [|constructor].
  pose proof (async_for_items (stream_llm_vllm_body rt)
                (fun item => truthy item = true)
                (aiter_lines response) (aiter_broken response)) as H.
  destruct (async_for _ _ _) as [items e]. apply H.
  intros line item. unfold stream_llm_vllm_body.
  destruct (truthy (PStr line)); [|discriminate].
  destruct (String.eqb _ _); [discriminate|].
  destruct (bind _ _) as [content|e'].
  - destruct (truthy content) eqn:Hc; [intros [= <-]; exact Hc | discriminate].
  - destruct (is_JSONDecodeError e'); discriminate.
Qed.

(** X17. [stream_llm_ollama] yields the [response] field of a line as it is,
    empty or not and text or not: a line that decodes to an object with that
    field always yields its value. *)
Theorem stream_llm_ollama_yields_any_response (rt : Runtime) (line : string)
    (d : list (string * pyval)) (v : pyval) :
  line <> EmptyString ->
  json_loads rt line = Ok (PDict d) ->
  dict_lookup "response" d = Some v ->
  stream_llm_ollama_body rt line = Yield v.
Proof.
  intros Hne Hj Hv.
  rewrite (stream_llm_ollama_body_decoded rt line (PDict d)).
  - now rewrite Hv.
  - simpl. apply negb_true_iff. now apply String.eqb_neq.
  - exact Hj.
Qed.

Lemma stream_llm_ollama_yields_any_response_witness :
  stream_llm_ollama_body (runtime_replying (Ok (streaming [])))
    (dq "{'response':'','done':true}")
  = Yield (PStr EmptyString).
Proof.
  exact (stream_llm_ollama_yields_any_response
           (runtime_replying (Ok (streaming [])))
           (dq "{'response':'','done':true}")
           [("response", PStr EmptyString); ("done", PBool true)]
           (PStr EmptyString) ltac:(discriminate) eq_refl eq_refl).
Defined.

(** X18. Both streams are causal: the items yielded on the first lines of a
    response are the beginning of the items yielded on the whole response,
    however either connection ends.  A later line never changes or removes
    an item already yielded. *)
Theorem streams_are_causal (rt : Runtime) (first later : list string)
    (b1 b2 : option exn) :
  is_prefix (fst (async_for (stream_llm_vllm_body rt) first b1))
    (fst (async_for (stream_llm_vllm_body rt) (first ++ later) b2))
  /\ is_prefix (fst (async_for (stream_llm_ollama_body rt) first b1))
       (fst (async_for (stream_llm_ollama_body rt) (first ++ later) b2)).
Proof. split; apply async_for_prefix. Qed.

(** X19. Neither stream yields more items than the response has non-empty
    lines: a line gives at most one item. *)
Theorem streams_yield_at_most_one_item_per_line (rt : Runtime) (lines : list string)
    (broken : option exn) :
  (List.length (fst (async_for (stream_llm_vllm_body rt) lines broken))
   <= List.length (filter (fun line => negb (String.eqb line EmptyString)) lines))%nat
  /\ (List.length (fst (async_for (stream_llm_ollama_body rt) lines broken))
      <= List.length (filter (fun line => negb (String.eqb line EmptyString)) lines))%nat.
Proof. split; apply async_for_length; reflexivity. Qed.

Lemma lstrip_all_in (chars p : string) (c : ascii) (rest : string) :
  all_in chars p = true ->
  char_in c chars = false ->
  lstrip chars (p ++ String c rest) = String c rest.
Proof.
  intros Hp Hc. induction p as [|a p IH]; simpl in *.
  - now rewrite Hc.
  - apply andb_true_iff in Hp as [Ha Hp]. rewrite Ha. now apply IH.
Qed.

(** X20. The end marker is recognised after any run of the characters [d],
    [a], [t], [:] and space, not only after [data: ]: every such line ends
    the vLLM stream. *)
Theorem done_after_any_prefix_characters (rt : Runtime) (p : string) :
  all_in "data: " p = true ->
  stream_llm_vllm_body rt (p ++ "[DONE]") = Break.
Proof.
  intros Hp. apply stream_llm_vllm_body_done. unfold vllm_raw_line.
  change "[DONE]" with (String "[" "DONE]") at 1.
  rewrite lstrip_all_in by (assumption || reflexivity).
  reflexivity.
Qed.

Lemma done_after_any_prefix_characters_witness :
  stream_llm_vllm_body (runtime_replying (Ok (streaming []))) "data:data:  [DONE]" = Break
  /\ stream_llm_vllm_body (runtime_replying (Ok (streaming []))) "[DONE]" = Break.
Proof.
  split.
  - exact (done_after_any_prefix_characters (runtime_replying (Ok (streaming [])))
             "data:data:  " eq_refl).
  - exact (done_after_any_prefix_characters (runtime_replying (Ok (streaming [])))
             EmptyString eq_refl).
Defined.

(** The line of a chunk, as a server sends it. *)
Lemma vllm_raw_line_exact_witness :
  vllm_raw_line ("data: " ++ String "{" "}")
  = strip_data_prefix ("data: " ++ String "{" "}").
Proof. exact (vllm_raw_line_exact "{" "}" eq_refl). Defined.

(** ** More on the chat-model adapter *)

(** The loop of [_astream] over text chunks followed by a chunk that is not a
    text, and over text chunks of a stream that raised. *)
Lemma astream_loop_non_text (acc : string) (deltas : list string) (chunk : pyval)
    (rest : list pyval) (raised : option exn) :
  (forall s, chunk <> PStr s) ->
  SpandaLLM._astream_loop acc (map PStr deltas ++ chunk :: rest) raised
  = (map AIMessage.mk deltas,
     Some (mkExn TypeError
             ("can only concatenate str (not " ++ dquote ++ type_name chunk
              ++ dquote ++ ") to str")%string)).
Proof.
  intros Hc. revert acc. induction deltas as [|d ds IH]; intros acc.
  - cbn [map app SpandaLLM._astream_loop].
    destruct chunk; try reflexivity. now elim (Hc s).
  - cbn [map app SpandaLLM._astream_loop]. now rewrite IH.
Qed.

Lemma astream_loop_raised (acc : string) (deltas : list string) (e : exn) :
  SpandaLLM._astream_loop acc (map PStr deltas) (Some e)
  = (map AIMessage.mk deltas, Some e).
Proof.
  revert acc. induction deltas as [|d ds IH]; intros acc; [reflexivity|].
  cbn [map SpandaLLM._astream_loop]. now rewrite IH.
Qed.

(** X21. A chunk that is not a text stops [SpandaLLM._astream]: the text
    chunks before it are emitted, then [content += chunk] raises a
    [TypeError]; no final message follows and the later chunks are lost.  An
    Ollama line whose [response] is a number or [null] is such a chunk. *)
Theorem astream_stops_at_a_chunk_that_is_no_text (rt : Runtime) (self : SpandaLLM.t)
    (messages : pyval) (deltas : list string) (chunk : pyval) (rest : list pyval) :
  yielded (stream_llm rt PNone messages (SpandaLLM.config self))
  = map PStr deltas ++ chunk :: rest ->
  (forall s, chunk <> PStr s) ->
  yielded (SpandaLLM._astream rt self messages) = map AIMessage.mk deltas
  /\ raised (SpandaLLM._astream rt self messages)
     = Some (mkExn TypeError
               ("can only concatenate str (not " ++ dquote ++ type_name chunk
                ++ dquote ++ ") to str")%string).
Proof.
  intros Hy Hc. unfold SpandaLLM._astream. rewrite Hy.
  rewrite astream_loop_non_text by assumption. split; reflexivity.
Qed.

Lemma astream_stops_at_a_chunk_that_is_no_text_witness :
  yielded (SpandaLLM._astream
             (runtime_replying
                (Ok (streaming [ dq "{'response':'Hel'}"; dq "{'response':5}";
                                 dq "{'response':'lo'}" ])))
             (SpandaLLM.mk (Some ollama_only) false) user_messages)
  = [AIMessage.mk "Hel"].
Proof.
  exact (proj1 (astream_stops_at_a_chunk_that_is_no_text
                  (runtime_replying
                     (Ok (streaming [ dq "{'response':'Hel'}"; dq "{'response':5}";
                                      dq "{'response':'lo'}" ])))
                  (SpandaLLM.mk (Some ollama_only) false) user_messages
                  ["Hel"] (PInt 5) [PStr "lo"] eq_refl
                  (fun s H => ltac:(discriminate H)))).
Defined.

(** X22. An exception of the underlying stream passes through
    [SpandaLLM._astream]: the messages of the deltas yielded before it are
    emitted, the same exception is raised, and no final message is emitted. *)
Theorem astream_passes_an_exception_on (rt : Runtime) (self : SpandaLLM.t)
    (messages : pyval) (deltas : list string) (e : exn) :
  yielded (stream_llm rt PNone messages (SpandaLLM.config self)) = map PStr deltas ->
  raised (stream_llm rt PNone messages (SpandaLLM.config self)) = Some e ->
  SpandaLLM._astream rt self messages
  = mkGen (map AIMessage.mk deltas) (Some e)
      (gen_calls (stream_llm rt PNone messages (SpandaLLM.config self))).
Proof.
  intros Hy Hr. unfold SpandaLLM._astream. rewrite Hy, Hr.
  now rewrite astream_loop_raised.
Qed.

Lemma astream_passes_an_exception_on_witness :
  SpandaLLM._astream
    (runtime_replying
       (Ok (mkResponse 200 EmptyString EmptyString
              [ dq "data: {'choices':[{'delta':{'content':'Hel'}}]}" ]
              (Some (mkExn (OtherException "ReadError") "connection reset")))))
    (SpandaLLM.mk (Some vllm_only) false) user_messages
  = mkGen [AIMessage.mk "Hel"]
      (Some (mkExn (OtherException "ReadError") "connection reset"))
      (gen_calls
         (stream_llm
            (runtime_replying
               (Ok (mkResponse 200 EmptyString EmptyString
                      [ dq "data: {'choices':[{'delta':{'content':'Hel'}}]}" ]
                      (Some (mkExn (OtherException "ReadError") "connection reset")))))
            PNone user_messages (Some vllm_only))).
Proof.
  exact (astream_passes_an_exception_on
           (runtime_replying
              (Ok (mkResponse 200 EmptyString EmptyString
                     [ dq "data: {'choices':[{'delta':{'content':'Hel'}}]}" ]
                     (Some (mkExn (OtherException "ReadError") "connection reset")))))
           (SpandaLLM.mk (Some vllm_only) false) user_messages ["Hel"]
           (mkExn (OtherException "ReadError") "connection reset") eq_refl eq_refl).
Defined.

Lemma stream_llm_without_backend (rt : Runtime) (prompt messages : pyval)
    (config : option EnvConfig.t) :
  EnvConfig.is_vllm_available (config_or_env rt config) = false ->
  EnvConfig.is_ollama_available (config_or_env rt config) = false ->
  stream_llm rt prompt messages config
  = mkGen [PStr "Error: No LLM service available for model"] None [].
Proof.
  intros Hv Ho.
  assert (H : stream_llm rt prompt messages config
              = stream_llm rt prompt messages (Some (config_or_env rt config)))
    by now destruct config.
  rewrite H, stream_llm_cases. now rewrite Hv, Ho.
Qed.

Lemma invoke_llm_without_backend (rt : Runtime) (prompt messages : pyval)
    (config : option EnvConfig.t) :
  EnvConfig.is_vllm_available (config_or_env rt config) = false ->
  EnvConfig.is_ollama_available (config_or_env rt config) = false ->
  invoke_llm rt prompt messages config false
  = Awaited (mkCall (Ok (PDict [("error", PStr "No LLM service available for model")])) []).
Proof.
  intros Hv Ho.
  assert (H : invoke_llm rt prompt messages config false
              = invoke_llm rt prompt messages (Some (config_or_env rt config)) false)
    by now destruct config.
  rewrite H, invoke_llm_cases. now rewrite Hv, Ho.
Qed.

(** X23. With no backend available, [SpandaLLM._astream] raises nothing and
    issues no request: it emits the error text twice, once as if it were a
    delta and once as the final message. *)
Theorem astream_without_backend (rt : Runtime) (self : SpandaLLM.t) (messages : pyval) :
  EnvConfig.is_vllm_available (config_or_env rt (SpandaLLM.config self)) = false ->
  EnvConfig.is_ollama_available (config_or_env rt (SpandaLLM.config self)) = false ->
  SpandaLLM._astream rt self messages
  = mkGen [ AIMessage.mk "Error: No LLM service available for model";
            AIMessage.mk "Error: No LLM service available for model" ]
      None [].
Proof.
  intros Hv Ho. unfold SpandaLLM._astream.
  now rewrite stream_llm_without_backend.
Qed.

Lemma astream_without_backend_witness :
  SpandaLLM._astream (runtime_replying (Ok (streaming hel_lo_done)))
    (SpandaLLM.mk None false) user_messages
  = mkGen [ AIMessage.mk "Error: No LLM service available for model";
            AIMessage.mk "Error: No LLM service available for model" ]
      None [].
Proof.
  exact (astream_without_backend (runtime_replying (Ok (streaming hel_lo_done)))
           (SpandaLLM.mk None false) user_messages eq_refl eq_refl).
Defined.

Lemma astream_loop_ended (chunks : list pyval) (raised : option exn) (acc : string)
    (items : list AIMessage.t) :
  SpandaLLM._astream_loop acc chunks raised = (items, None) ->
  raised = None /\ exists deltas, chunks = map PStr deltas.
Proof.
  revert acc items. induction chunks as [|chunk chunks IH]; intros acc items.
  - simpl. destruct raised; [discriminate|]. intros _. split; [reflexivity|].
    now exists [].
  - cbn [SpandaLLM._astream_loop].
    destruct chunk; try discriminate.
    destruct (SpandaLLM._astream_loop (acc ++ s)%string chunks raised)
      as [more e] eqn:Hl.
    intros [= <- ->]. destruct (IH _ _ Hl) as [Hr [deltas ->]].
    split; [exact Hr|]. now exists (s :: deltas).
Qed.

(** X24. Whenever [SpandaLLM._astream] ends without an exception, what it
    emitted is consistent: the underlying stream yielded only texts, there is
    one message per delta and one more, and the content of the last message
    is the concatenation of the contents of all the messages before it. *)
Theorem astream_final_message_is_the_concatenation (rt : Runtime) (self : SpandaLLM.t)
    (messages : pyval) :
  raised (SpandaLLM._astream rt self messages) = None ->
  exists deltas,
    yielded (stream_llm rt PNone messages (SpandaLLM.config self)) = map PStr deltas
    /\ yielded (SpandaLLM._astream rt self messages)
       = map AIMessage.mk deltas ++ [AIMessage.mk (String.concat EmptyString deltas)].
Proof.
  unfold SpandaLLM._astream.
  destruct (SpandaLLM._astream_loop _ _ _) as [items e] eqn:Hl.
  cbn [raised yielded]. intros ->.
  destruct (astream_loop_ended _ _ _ _ Hl) as [Hr [deltas Hd]].
  exists deltas. split; [exact Hd|].
  rewrite Hd, Hr, astream_loop_text in Hl. now inversion Hl.
Qed.

Lemma astream_final_message_is_the_concatenation_witness :
  exists deltas,
    yielded (stream_llm (runtime_replying (Ok (streaming hel_lo_done))) PNone
               user_messages (Some vllm_only))
    = map PStr deltas
    /\ yielded (SpandaLLM._astream (runtime_replying (Ok (streaming hel_lo_done)))
                  (SpandaLLM.mk (Some vllm_only) false) user_messages)
       = map AIMessage.mk deltas ++ [AIMessage.mk (String.concat EmptyString deltas)].
Proof.
  exact (astream_final_message_is_the_concatenation
           (runtime_replying (Ok (streaming hel_lo_done)))
           (SpandaLLM.mk (Some vllm_only) false) user_messages eq_refl).
Defined.

Lemma text_library_handles_text : handles_text text_library.
Proof. intros s. split; reflexivity. Qed.

(** X25. [SpandaLLM._agenerate] turns the dictionary of [invoke_llm] into one
    generation holding one message, and [ainvoke] returns that message: a
    text answer becomes the content as it is, and an error becomes the
    content ["Error: "] followed by the error text, an ordinary message and
    not an exception.  Both issue the requests of [invoke_llm] and no
    other. *)
Theorem agenerate_wraps_the_result (rt : Runtime) (lib : Library) (self : SpandaLLM.t)
    (messages : pyval) (s : string) (requests : list Request) :
  handles_text lib ->
  (invoke_llm rt PNone messages (SpandaLLM.config self) false
   = Awaited (mkCall (Ok (PDict [("answer", PStr s)])) requests) ->
   SpandaLLM_agenerate rt lib self messages
   = mkCall (Ok (ChatResult.mk [ChatGeneration.mk (AIMessage.mk s)])) requests
   /\ SpandaLLM_ainvoke rt lib self messages = mkCall (Ok (AIMessage.mk s)) requests)
  /\ (invoke_llm rt PNone messages (SpandaLLM.config self) false
      = Awaited (mkCall (Ok (PDict [("error", PStr s)])) requests) ->
      SpandaLLM_agenerate rt lib self messages
      = mkCall (Ok (ChatResult.mk [ChatGeneration.mk (AIMessage.mk ("Error: " ++ s))]))
          requests
      /\ SpandaLLM_ainvoke rt lib self messages
         = mkCall (Ok (AIMessage.mk ("Error: " ++ s))) requests).
Proof.
  intros Hlib. split; intros Hinvoke.
  - assert (Hg : SpandaLLM_agenerate rt lib self messages
                 = mkCall (Ok (ChatResult.mk [ChatGeneration.mk (AIMessage.mk s)])) requests).
    { unfold SpandaLLM_agenerate. rewrite Hinvoke.
      cbn [returned calls bind py_contains_str dict_keys map fst existsb orb
           py_getitem_str dict_lookup].
      change (String.eqb "answer" "answer") with true. cbn [orb bind].
      now rewrite (proj2 (Hlib s)). }
    split; [exact Hg|]. unfold SpandaLLM_ainvoke. now rewrite Hg.
  - assert (Hg : SpandaLLM_agenerate rt lib self messages
                 = mkCall (Ok (ChatResult.mk
                                 [ChatGeneration.mk (AIMessage.mk ("Error: " ++ s))]))
                     requests).
    { unfold SpandaLLM_agenerate. rewrite Hinvoke.
      cbn [returned calls bind py_contains_str dict_keys map fst existsb orb
           py_get dict_lookup].
      change (String.eqb "answer" "error") with false.
      change (String.eqb "error" "error") with true. cbn [orb bind].
      rewrite (proj1 (Hlib s)). now rewrite (proj2 (Hlib ("Error: " ++ s)%string)). }
    split; [exact Hg|]. unfold SpandaLLM_ainvoke. now rewrite Hg.
Qed.

(** X25 on the error ["boom"] of a 500 response and on a text answer. *)
Lemma agenerate_wraps_the_result_witness :
  returned (SpandaLLM_ainvoke (runtime_replying (Ok (replied 500 "boom"))) text_library
              (SpandaLLM.mk (Some vllm_only) false) user_messages)
  = Ok (AIMessage.mk "Error: boom")
  /\ returned (SpandaLLM_ainvoke
                 (runtime_replying
                    (Ok (replied 200 (dq "{'choices':[{'message':{'content':'Hello'}}]}"))))
                 text_library (SpandaLLM.mk (Some vllm_only) false) user_messages)
     = Ok (AIMessage.mk "Hello").
Proof.
  split.
  - exact (f_equal returned
             (proj2 (proj2 (agenerate_wraps_the_result
                              (runtime_replying (Ok (replied 500 "boom"))) text_library
                              (SpandaLLM.mk (Some vllm_only) false) user_messages "boom" _
                              text_library_handles_text)
                       eq_refl))).
  - exact (f_equal returned
             (proj2 (proj1 (agenerate_wraps_the_result
                              (runtime_replying
                                 (Ok (replied 200
                                        (dq "{'choices':[{'message':{'content':'Hello'}}]}"))))
                              text_library
                              (SpandaLLM.mk (Some vllm_only) false) user_messages "Hello" _
                              text_library_handles_text)
                       eq_refl))).
Defined.

(** X26. With no backend available, [SpandaLLM.ainvoke] issues no request and
    returns the message ["Error: No LLM service available for model"]. *)
Theorem ainvoke_without_backend (rt : Runtime) (lib : Library) (self : SpandaLLM.t)
    (messages : pyval) :
  handles_text lib ->
  EnvConfig.is_vllm_available (config_or_env rt (SpandaLLM.config self)) = false ->
  EnvConfig.is_ollama_available (config_or_env rt (SpandaLLM.config self)) = false ->
  SpandaLLM_ainvoke rt lib self messages
  = mkCall (Ok (AIMessage.mk "Error: No LLM service available for model")) [].
Proof.
  intros Hlib Hv Ho. unfold SpandaLLM_ainvoke, SpandaLLM_agenerate.
  rewrite invoke_llm_without_backend by assumption.
  cbn [returned calls bind py_contains_str dict_keys map fst existsb orb
       py_get dict_lookup].
  change (String.eqb "answer" "error") with false.
  change (String.eqb "error" "error") with true. cbn [orb bind].
  rewrite (proj1 (Hlib _)), (proj2 (Hlib _)). reflexivity.
Qed.

Lemma ainvoke_without_backend_witness :
  SpandaLLM_ainvoke (runtime_replying (Ok (replied 200 EmptyString))) text_library
    (SpandaLLM.mk None false) user_messages
  = mkCall (Ok (AIMessage.mk "Error: No LLM service available for model")) [].
Proof.
  exact (ainvoke_without_backend (runtime_replying (Ok (replied 200 EmptyString)))
           text_library (SpandaLLM.mk None false) user_messages
           text_library_handles_text eq_refl eq_refl).
Defined.

(** X27. With an empty message list and vLLM selected, [SpandaLLM._agenerate]
    and [ainvoke] raise the [TypeError] of [prompt[0]] on the missing prompt,
    whatever the library does: the failure to build the payload is not turned
    into an error message, and no request is issued. *)
Theorem agenerate_raises_on_empty_messages (rt : Runtime) (lib : Library)
    (self : SpandaLLM.t) (messages : pyval) :
  truthy messages = false ->
  EnvConfig.is_vllm_available (config_or_env rt (SpandaLLM.config self)) = true ->
  SpandaLLM_agenerate rt lib self messages
  = mkCall (Raise (mkExn TypeError "'NoneType' object is not subscriptable")) []
  /\ SpandaLLM_ainvoke rt lib self messages
     = mkCall (Raise (mkExn TypeError "'NoneType' object is not subscriptable")) [].
Proof.
  intros Hm Hv.
  assert (Hg : SpandaLLM_agenerate rt lib self messages
               = mkCall (Raise (mkExn TypeError "'NoneType' object is not subscriptable")) []).
  { unfold SpandaLLM_agenerate.
    assert (H : invoke_llm rt PNone messages (SpandaLLM.config self) false
                = invoke_llm rt PNone messages
                    (Some (config_or_env rt (SpandaLLM.config self))) false)
      by now destruct (SpandaLLM.config self).
    rewrite H, invoke_llm_cases, Hv.
    unfold invoke_llm_vllm, vllm_payload. rewrite Hm. reflexivity. }
  split; [exact Hg|]. unfold SpandaLLM_ainvoke. now rewrite Hg.
Qed.

Lemma agenerate_raises_on_empty_messages_witness :
  SpandaLLM_ainvoke (runtime_replying (Ok (replied 200 EmptyString))) text_library
    (SpandaLLM.mk (Some vllm_only) false) (PList [])
  = mkCall (Raise (mkExn TypeError "'NoneType' object is not subscriptable")) [].
Proof.
  exact (proj2 (agenerate_raises_on_empty_messages
                  (runtime_replying (Ok (replied 200 EmptyString))) text_library
                  (SpandaLLM.mk (Some vllm_only) false) (PList []) eq_refl eq_refl)).
Defined.
